(** * Batch asset generators of gemmology.dev

    A shallow embedding of the two generation scripts

      - [scripts/generate-all-assets.py]     (module [AllAssets])
      - [scripts/generate-crystal-assets.py] (module [CrystalAssets])

    together with the fragment of Python they rely on (module [Py]):
    string methods, exceptions with [try]/[except], and the side effects the
    scripts perform (standard output, directory creation, files written by
    the exporters).

    Modelling conventions.
      - A Python [str] is a Rocq [string], read as the UTF-8 bytes of the
        text.  [lower] and [upper] act on the ASCII letters only; every other
        byte is left as it is.
      - The external packages (preset database, CDL parser, geometry builder,
        exporters) are opaque: they are fields of a record of collaborators,
        each returning either a value or the message of the [Exception] it
        raised.
      - A [pathlib.Path] is kept symbolically, as the chain of [/] operations
        that built it. *)

From Stdlib Require Import Ascii ZArith.
From stdpp Require Import gmap strings list pretty.

Local Open Scope char_scope.
Local Open Scope stdpp_scope.

(* ===================================================================== *)
(** * Python fragment                                                     *)
(* ===================================================================== *)

Module Py.

(** ** String methods *)

Fixpoint str_map (f : ascii → ascii) (s : string) : string :=
  match s with
  | EmptyString => EmptyString
  | String c s' => String (f c) (str_map f s')
  end.

(** [c.lower()] on one byte: [A]..[Z] move down to [a]..[z]. *)
Definition lower_char (c : ascii) : ascii :=
  let n := N_of_ascii c in
  if ((65 <=? n) && (n <=? 90))%N then ascii_of_N (n + 32) else c.

(** [c.upper()] on one byte: [a]..[z] move up to [A]..[Z]. *)
Definition upper_char (c : ascii) : ascii :=
  let n := N_of_ascii c in
  if ((97 <=? n) && (n <=? 122))%N then ascii_of_N (n - 32) else c.

(** [s.lower()] and [s.upper()]. *)
Definition lower (s : string) : string := str_map lower_char s.
Definition upper (s : string) : string := str_map upper_char s.

(** [s.replace(old, new)] for a non-empty [old]: scan from the left, replace
    each occurrence found and resume after it.  [skip] counts the bytes of
    the occurrence just replaced that are still to be dropped. *)
Fixpoint replace_from (old new : string) (skip : nat) (s : string) : string :=
  match s with
  | EmptyString => EmptyString
  | String c s' =>
      match skip with
      | S k => replace_from old new k s'
      | O =>
          if String.prefix old s
          then new +:+ replace_from old new (String.length old - 1) s'
          else String c (replace_from old new 0 s')
      end
  end.

(** With an empty [old], Python inserts [new] before every character and at
    the end. *)
Fixpoint interleave (new s : string) : string :=
  match s with
  | EmptyString => new
  | String c s' => new +:+ String c (interleave new s')
  end.

(** [s.replace(old, new)]. *)
Definition replace (old new s : string) : string :=
  match old with
  | EmptyString => interleave new s
  | String _ _ => replace_from old new 0 s
  end.

(** [needle in hay]. *)
Fixpoint contains (needle hay : string) : bool :=
  String.prefix needle hay ||
  match hay with
  | EmptyString => false
  | String _ hay' => contains needle hay'
  end.

(** [sep.join(parts)]. *)
Fixpoint join (sep : string) (parts : list string) : string :=
  match parts with
  | [] => EmptyString
  | [p] => p
  | p :: rest => p +:+ sep +:+ join sep rest
  end.

(** [s * n]. *)
Fixpoint repeat_str (s : string) (n : nat) : string :=
  match n with
  | O => EmptyString
  | S k => s +:+ repeat_str s k
  end.

(** [s.split(sep)] for a one-character separator: [cur] is the piece being
    read.  The result always has at least one piece. *)
Fixpoint split_from (sep : ascii) (cur : string) (s : string) : list string :=
  match s with
  | EmptyString => [cur]
  | String c s' =>
      if decide (c = sep) then cur :: split_from sep EmptyString s'
      else split_from sep (cur +:+ String c EmptyString) s'
  end.

Definition split (sep : ascii) (s : string) : list string :=
  split_from sep EmptyString s.

(** The ASCII characters [str.strip()] removes: tab, line feed, vertical tab,
    form feed, carriage return, the four separators 28..31 and the space. *)
Definition isspace (c : ascii) : bool :=
  let n := N_of_ascii c in
  (((9 <=? n) && (n <=? 13)) || ((28 <=? n) && (n <=? 31)) || (n =? 32))%N.

Fixpoint lstrip (s : string) : string :=
  match s with
  | EmptyString => EmptyString
  | String c s' => if isspace c then lstrip s' else s
  end.

(** [rstrip]: a character is kept when something non-blank follows it. *)
Fixpoint rstrip (s : string) : string :=
  match s with
  | EmptyString => EmptyString
  | String c s' =>
      match rstrip s' with
      | EmptyString => if isspace c then EmptyString else String c EmptyString
      | t => String c t
      end
  end.

(** [s.strip()]. *)
Definition strip (s : string) : string := rstrip (lstrip s).

(** [str(n)] of a non-negative integer. *)
Definition str_of_nat (n : nat) : string := pretty n.

(** [enumerate(l, start)]. *)
Fixpoint enumerate {A} (start : nat) (l : list A) : list (nat * A) :=
  match l with
  | [] => []
  | x :: l' => (start, x) :: enumerate (S start) l'
  end.

(** ** Exceptions *)

(** The exceptions the scripts can meet.  [Exception msg] stands for any
    other subclass of Python's [Exception] whose text is [msg];
    [SystemExit] is raised by [sys.exit] and is not an [Exception]. *)
Inductive exn :=
  | ImportError (msg : string)
  | KeyError (key : string)
  | Exception (msg : string)
  | SystemExit (code : Z).

(** What [except Exception] catches. *)
Definition is_Exception (e : exn) : bool :=
  match e with SystemExit _ => false | _ => true end.

(** What [except ImportError] catches. *)
Definition is_ImportError (e : exn) : bool :=
  match e with ImportError _ => true | _ => false end.

(** [str(e)], as the f-strings print it. *)
Definition exn_str (e : exn) : string :=
  match e with
  | ImportError msg | Exception msg => msg
  | KeyError key => "'" +:+ key +:+ "'"
  | SystemExit code => pretty code
  end.

(** What a call into an external package does: return a value, or raise an
    [Exception] carrying a message. *)
Inductive result (A : Type) :=
  | Ok (a : A)
  | Raises (msg : string).
Global Arguments Ok {A} a.
Global Arguments Raises {A} msg.

(** ** Paths *)

(** [Path(__file__).parent.parent] is the repository root (both scripts live
    in [scripts/]); [p / s] appends the text [s]. *)
Inductive Path :=
  | RepoRoot
  | Div (p : Path) (s : string).

Global Instance Path_eq_dec : EqDecision Path.
Proof. solve_decision. Defined.

(** ** Side effects *)

(** One [print] call.  An f-string that interpolates a set or a path is kept
    with that value, since its text depends on the hash order of the set or
    on where the repository is checked out. *)
Inductive output :=
  | Text (s : string)
  | TextSet (prefix : string) (elems : gset string)
  | TextPath (prefix : string) (p : Path).

Record world := World {
  stdout : list output;             (* lines printed, oldest first *)
  dirs : list Path;                 (* directories passed to mkdir *)
  calls : list (string * Path);     (* exporter invoked, output path given *)
  files : list (Path * string);     (* files written, with their content *)
}.

Definition empty_world : world := World [] [] [] [].

Definition w_print (o : output) (w : world) : world :=
  World (stdout w ++ [o]) (dirs w) (calls w) (files w).
Definition w_mkdir (p : Path) (w : world) : world :=
  World (stdout w) (dirs w ++ [p]) (calls w) (files w).
Definition w_call (f : string) (p : Path) (w : world) : world :=
  World (stdout w) (dirs w) (calls w ++ [(f, p)]) (files w).
Definition w_write (p : Path) (content : string) (w : world) : world :=
  World (stdout w) (dirs w) (calls w) (files w ++ [(p, content)]).

(** ** Computations *)

(** A statement runs on the mutable locals [L] of its function and on the
    world, and either returns or raises. *)
Inductive outcome (A : Type) :=
  | Returned (a : A)
  | Raised (e : exn).
Global Arguments Returned {A} a.
Global Arguments Raised {A} e.

Definition M (L A : Type) : Type := L → world → outcome A * L * world.

Section Monad.
Context {L : Type}.

Definition ret {A} (a : A) : M L A := λ l w, (Returned a, l, w).

Definition bind {A B} (m : M L A) (k : A → M L B) : M L B :=
  λ l w,
    match m l w with
    | (Returned a, l', w') => k a l' w'
    | (Raised e, l', w') => (Raised e, l', w')
    end.

Definition raise {A} (e : exn) : M L A := λ l w, (Raised e, l, w).

(** [try: body  except <class> as e: handler e]. *)
Definition try_except {A} (body : M L A) (catches : exn → bool)
    (handler : exn → M L A) : M L A :=
  λ l w,
    match body l w with
    | (Raised e, l', w') =>
        if catches e then handler e l' w' else (Raised e, l', w')
    | r => r
    end.

(** [for x in xs: body x]. *)
Fixpoint for_each {A} (xs : list A) (body : A → M L unit) : M L unit :=
  match xs with
  | [] => ret tt
  | x :: xs' => bind (body x) (λ _, for_each xs' body)
  end.

(** Calling into an external package. *)
Definition call {A} (r : result A) : M L A :=
  match r with
  | Ok a => ret a
  | Raises msg => raise (Exception msg)
  end.

Definition print (o : output) : M L unit := λ l w, (Returned tt, l, w_print o w).
Definition mkdir (p : Path) : M L unit := λ l w, (Returned tt, l, w_mkdir p w).
Definition sys_exit {A} (code : Z) : M L A := raise (SystemExit code).

(** An exporter is invoked on [p]; when it returns, the file is there, and
    one that raises is taken to leave no file behind. *)
Definition call_exporter (f : string) (p : Path) (r : result string) : M L unit :=
  λ l w,
    match r with
    | Ok content => (Returned tt, l, w_write p content (w_call f p w))
    | Raises msg => (Raised (Exception msg), l, w_call f p w)
    end.

(** [with open(p, "w") as f: f.write(content)]. *)
Definition write_file (p : Path) (content : string) : M L unit :=
  λ l w, (Returned tt, l, w_write p content w).

Definition get_locals : M L L := λ l w, (Returned l, l, w).
Definition set_locals (l' : L) : M L unit := λ _ w, (Returned tt, l', w).

(** Calling a function of the script: the callee runs on locals of its own,
    [init], which are gone when it returns or raises. *)
Definition call_function {L' A} (callee : M L' A) (init : L') : M L A :=
  λ l w, let '(o, _, w') := callee init w in (o, l, w').
End Monad.

Global Instance M_ret {L} : MRet (M L) := @ret L.
Global Instance M_bind {L} : MBind (M L) := λ A B k m, bind m k.

(** The exit status of a script whose top level ran as [m]: an uncaught
    [SystemExit code] exits with [code], any other uncaught exception ends
    in a traceback and status 1. *)
Definition exit_status {A} (o : outcome A) : Z :=
  match o with
  | Returned _ => 0
  | Raised (SystemExit code) => code
  | Raised _ => 1
  end.

End Py.

(* ===================================================================== *)
(** * scripts/generate-all-assets.py                                      *)
(* ===================================================================== *)

Module AllAssets.
Import Py.

(** Output directories (lines 22-29). *)
Definition BASE_DIR : Path := Div RepoRoot "public".

Definition OUTPUT_DIRS : gmap string Path :=
  {[ "svg" := Div BASE_DIR "crystals";
     "stl" := Div (Div BASE_DIR "models") "stl";
     "gltf" := Div (Div BASE_DIR "models") "gltf";
     "obj" := Div (Div BASE_DIR "models") "obj" ]}.

(** [normalize_filename] (lines 32-34). *)
Definition normalize_filename (name : string) : string :=
  replace ")" EmptyString
    (replace "(" EmptyString
      (replace "'" EmptyString
        (replace " " "-" (lower name)))).

(** What [get_preset] may hand back: [None], a dict, or an object whose
    [cdl] attribute is read with [getattr(preset, "cdl", None)]. *)
Inductive preset :=
  | PresetNone
  | PresetDict (d : gmap string string)
  | PresetObject (cdl : option string).

(** [preset.get("cdl") if isinstance(preset, dict)
     else getattr(preset, "cdl", None)] (line 71). *)
Definition preset_cdl (p : preset) : option string :=
  match p with
  | PresetDict d => d !! "cdl"
  | PresetObject cdl => cdl
  | PresetNone => None
  end.

(** Truth value of a preset: [None] and the empty dict are false. *)
Definition preset_truthy (p : preset) : bool :=
  match p with
  | PresetNone => false
  | PresetDict d => bool_decide (d ≠ ∅)
  | PresetObject _ => true
  end.

(** Truth value of the description: [None] and the empty text are false. *)
Definition cdl_truthy (cdl : option string) : bool :=
  match cdl with
  | Some text => bool_decide (text ≠ EmptyString)
  | None => false
  end.

(** [not preset or not cdl] (line 72). *)
Definition no_cdl (p : preset) : bool :=
  negb (preset_truthy p) || negb (cdl_truthy (preset_cdl p)).

(** One entry of [stats]: [{"success": 0, "failed": []}]. *)
Record stat := Stat { success : nat; failed : list string }.

(** [stats = {fmt: {"success": 0, "failed": []} for fmt in formats}]. *)
Definition init_stats (formats : list string) : gmap string stat :=
  foldl (λ stats fmt, <[fmt := Stat 0 []]> stats) ∅ formats.

(** Every requested format has its entry in [stats]. *)
Definition covers (stats : gmap string stat) (formats : list string) : Prop :=
  Forall (λ fmt, is_Some (stats !! fmt)) formats.

(** How often [fmt] is requested. *)
Definition requests (fmt : string) (formats : list string) : nat :=
  length (filter (λ g, g = fmt) formats).

(** The entry of a format after [n] rounds of one preset [name], all with
    the same end: the exporter returned, raised, or there was none. *)
Definition after_rounds {A} (name : string) (n : nat) (r : option (result A))
    (s : stat) : stat :=
  match r with
  | Some (Ok _) => Stat (success s + n) (failed s)
  | Some (Raises _) => Stat (success s) (failed s ++ replicate n name)
  | None => s
  end.

(** Preset selection (lines 57-59): a filter that is [None] or empty selects
    everything. *)
Definition select_presets (presets : list string) (preset_filter : option string)
    : list string :=
  match preset_filter with
  | Some f =>
      if bool_decide (f ≠ EmptyString)
      then filter (λ p, contains (lower f) (lower p) = true) presets
      else presets
  | None => presets
  end.

Section Script.

(** The external packages.  [Desc] is what the parser returns, [Geometry]
    what the geometry builder returns, [Arrays] the vertex, face and normal
    arrays taken from it (lines 85-87). *)
Context {Desc Geometry Arrays : Type}.

Record externals := Externals {
  numpy_error : option string;     (* [import numpy] fails with this text *)
  import_error : option string;    (* the imports of lines 40-45 fail *)
  list_presets : list string;
  get_preset : string → preset;
  parse_cdl : string → result Desc;
  cdl_to_geometry : Desc → result Geometry;
  geometry_arrays : Geometry → result Arrays;
  generate_geometry_svg : Arrays → Path → result string;
  export_stl : Arrays → Path → result string;
  export_gltf : Arrays → Path → string → result string;
  export_obj : Arrays → Path → string → result string;
}.

Context (ext : externals).

(** The only mutable local of [generate_assets] is [stats]. *)
Abbreviation stats_t := (gmap string stat).

(** [stats[fmt]]. *)
Definition get_stat (fmt : string) : M stats_t stat :=
  λ stats w,
    match stats !! fmt with
    | Some s => (Returned s, stats, w)
    | None => (Raised (KeyError fmt), stats, w)
    end.

Definition set_stat (fmt : string) (s : stat) : M stats_t unit :=
  λ stats w, (Returned tt, <[fmt := s]> stats, w).

(** [stats[fmt]["success"] += 1]. *)
Definition add_success (fmt : string) : M stats_t unit :=
  s ← get_stat fmt;
  set_stat fmt (Stat (S (success s)) (failed s)).

(** [stats[fmt]["failed"].append(name)]. *)
Definition append_failed (fmt name : string) : M stats_t unit :=
  s ← get_stat fmt;
  set_stat fmt (Stat (success s) (failed s ++ [name])).

(** [OUTPUT_DIRS[fmt]]. *)
Definition output_dir (fmt : string) : M stats_t Path :=
  match OUTPUT_DIRS !! fmt with
  | Some d => mret d
  | None => raise (KeyError fmt)
  end.

(** The imports of lines 39-50. *)
Definition import_packages : M stats_t unit :=
  try_except
    (match import_error ext with
     | Some msg => raise (ImportError msg)
     | None => mret tt
     end)
    is_ImportError
    (λ e,
      print (Text ("Error: Missing required package: " +:+ exn_str e)) ;;
      print (Text "
Install required packages:") ;;
      print (Text "  pip install gemmology-cdl-parser gemmology-crystal-geometry gemmology-crystal-renderer gemmology-mineral-database") ;;
      sys_exit 1).

(** One round of the format loop (lines 91-131). *)
Definition export_format (name filename : string) (arrays : Arrays)
    (fmt : string) : M stats_t unit :=
  try_except
    (if bool_decide (fmt = "svg") then
       d ← output_dir fmt;
       let output_path := Div d (filename +:+ ".svg") in
       call_exporter "generate_geometry_svg" output_path
         (generate_geometry_svg ext arrays output_path) ;;
       add_success fmt ;;
       print (Text ("    ✓ SVG: " +:+ filename +:+ ".svg"))
     else if bool_decide (fmt = "stl") then
       d ← output_dir fmt;
       let output_path := Div d (filename +:+ ".stl") in
       call_exporter "export_stl" output_path
         (export_stl ext arrays output_path) ;;
       add_success fmt ;;
       print (Text ("    ✓ STL: " +:+ filename +:+ ".stl"))
     else if bool_decide (fmt = "gltf") then
       d ← output_dir fmt;
       let output_path := Div d (filename +:+ ".glb") in
       call_exporter "export_gltf" output_path
         (export_gltf ext arrays output_path name) ;;
       add_success fmt ;;
       print (Text ("    ✓ glTF: " +:+ filename +:+ ".glb"))
     else if bool_decide (fmt = "obj") then
       d ← output_dir fmt;
       let output_path := Div d (filename +:+ ".obj") in
       call_exporter "export_obj" output_path
         (export_obj ext arrays output_path name) ;;
       add_success fmt ;;
       print (Text ("    ✓ OBJ: " +:+ filename +:+ ".obj"))
     else mret tt)
    is_Exception
    (λ e,
      print (Text ("    ✗ " +:+ upper fmt +:+ " error: " +:+ exn_str e)) ;;
      append_failed fmt name).

(** The exporter a round of the format loop invokes, as a table read off the
    four branches: the exporter's name, the path it is given, the line
    printed when it returns, and what it does. *)
Definition exporter_call (name filename : string) (arrays : Arrays)
    (fmt : string) : option (string * Path * string * result string) :=
  if bool_decide (fmt = "svg") then
    let p := Div (Div BASE_DIR "crystals") (filename +:+ ".svg") in
    Some ("generate_geometry_svg", p, "    ✓ SVG: " +:+ filename +:+ ".svg",
          generate_geometry_svg ext arrays p)
  else if bool_decide (fmt = "stl") then
    let p := Div (Div (Div BASE_DIR "models") "stl") (filename +:+ ".stl") in
    Some ("export_stl", p, "    ✓ STL: " +:+ filename +:+ ".stl",
          export_stl ext arrays p)
  else if bool_decide (fmt = "gltf") then
    let p := Div (Div (Div BASE_DIR "models") "gltf") (filename +:+ ".glb") in
    Some ("export_gltf", p, "    ✓ glTF: " +:+ filename +:+ ".glb",
          export_gltf ext arrays p name)
  else if bool_decide (fmt = "obj") then
    let p := Div (Div (Div BASE_DIR "models") "obj") (filename +:+ ".obj") in
    Some ("export_obj", p, "    ✓ OBJ: " +:+ filename +:+ ".obj",
          export_obj ext arrays p name)
  else None.

(** What the table says the exporter of a format does. *)
Definition exporter_result (name filename : string) (arrays : Arrays)
    (fmt : string) : option (result string) :=
  snd <$> exporter_call name filename arrays fmt.

(** The exporter invocations a list of formats stands for, and the files
    those invocations leave behind. *)
Definition invocations (name filename : string) (arrays : Arrays)
    (formats : list string) : list (string * Path) :=
  omap (λ fmt, (λ c, (c.1.1.1, c.1.1.2)) <$> exporter_call name filename arrays fmt)
       formats.

Definition written (name filename : string) (arrays : Arrays)
    (formats : list string) : list (Path * string) :=
  omap (λ fmt,
          match exporter_call name filename arrays fmt with
          | Some (_, p, _, Ok content) => Some (p, content)
          | _ => None
          end)
       formats.

(** The format loop (line 90). *)
Definition export_formats (name filename : string) (arrays : Arrays)
    (formats : list string) : M stats_t unit :=
  for_each formats (export_format name filename arrays).

(** What lines 81-87 come to: the arrays, or the message of the first step
    that raised. *)
Definition build_geometry (cdl : string) : result Arrays :=
  match parse_cdl ext cdl with
  | Ok desc =>
      match cdl_to_geometry ext desc with
      | Ok geom => geometry_arrays ext geom
      | Raises msg => Raises msg
      end
  | Raises msg => Raises msg
  end.

(** The body of the outer [try] for a preset with a description
    (lines 79-136). *)
Definition build_and_export (formats : list string) (name filename cdl : string)
    : M stats_t unit :=
  try_except
    (desc ← call (parse_cdl ext cdl);
     geom ← call (cdl_to_geometry ext desc);
     arrays ← call (geometry_arrays ext geom);
     export_formats name filename arrays formats)
    is_Exception
    (λ e,
      print (Text ("    ✗ Geometry error: " +:+ exn_str e)) ;;
      for_each formats (λ fmt, append_failed fmt name)).

(** [[i/total] ] at the head of a progress line. *)
Definition progress (i total : nat) : string :=
  "[" +:+ str_of_nat i +:+ "/" +:+ str_of_nat total +:+ "] ".

(** The body of the preset loop (lines 70-136). *)
Definition process_preset (formats : list string) (total : nat)
    (i : nat) (name : string) : M stats_t unit :=
  let preset := get_preset ext name in
  let cdl := preset_cdl preset in
  if no_cdl preset then
    print (Text (progress i total +:+ "SKIP: " +:+ name +:+ " (no CDL)"))
  else
    match cdl with
    | Some cdl =>
        let filename := normalize_filename name in
        print (Text (progress i total +:+ name)) ;;
        build_and_export formats name filename cdl
    | None => mret tt   (* excluded by [no_cdl] *)
    end.

(** The body of the summary loop (lines 142-145). *)
Definition summarize_format (total : nat) (fmt : string) : M stats_t unit :=
  s ← get_stat fmt;
  print (Text ("  " +:+ upper fmt +:+ ": " +:+ str_of_nat (success s) +:+ "/"
               +:+ str_of_nat total +:+ " generated")) ;;
  if bool_decide (failed s ≠ []) then
    print (Text ("    Failed: " +:+ join ", " (take 5 (failed s))
                 +:+ (if bool_decide (5 < length (failed s)) then "..."
                      else EmptyString)))
  else mret tt.

(** The summary (lines 139-145). *)
Definition print_summary (formats : list string) (total : nat) : M stats_t unit :=
  print (Text (repeat_str "-" 60)) ;;
  print (Text "Summary:") ;;
  for_each formats (summarize_format total).

(** [generate_assets] (lines 37-147). *)
Definition generate_assets (formats : list string) (preset_filter : option string)
    : M stats_t (gmap string stat) :=
  import_packages ;;
  for_each formats (λ fmt, d ← output_dir fmt; mkdir d) ;;
  let presets := select_presets (list_presets ext) preset_filter in
  let total := length presets in
  set_locals (init_stats formats) ;;
  print (Text ("Generating assets for " +:+ str_of_nat total +:+ " mineral presets...")) ;;
  print (Text ("Formats: " +:+ join ", " formats)) ;;
  print (TextPath "Output base: " BASE_DIR) ;;
  print (Text (repeat_str "-" 60)) ;;
  for_each (enumerate 1 presets) (λ '(i, name), process_preset formats total i name) ;;
  print_summary formats total ;;
  get_locals.

(** The command line, as [argparse] hands it over. *)
Record args := Args {
  arg_formats : string;           (* --formats *)
  arg_preset : option string;     (* --preset *)
}.


(** [formats = [f.strip().lower() for f in args.formats.split(",")]]. *)
Definition requested_formats (a : args) : list string :=
  (λ f, lower (strip f)) <$> split "," (arg_formats a).

Definition valid_formats : gset string := {[ "svg"; "stl"; "gltf"; "obj" ]}.

(** The script, from [import numpy] (line 20) to the end of the
    [__main__] block (lines 150-176). *)
Definition main (a : args) : M unit unit :=
  match numpy_error ext with
  | Some msg => raise (ImportError msg)
  | None => mret tt
  end ;;
  let formats := requested_formats a in
  let invalid : gset string := list_to_set formats ∖ valid_formats in
  if bool_decide (invalid ≠ ∅) then
    print (TextSet "Error: Invalid format(s): " invalid) ;;
    print (TextSet "Valid formats: " valid_formats) ;;
    sys_exit 1
  else
    call_function (generate_assets formats (arg_preset a)) ∅ ;;
    mret tt.

(** Running the script from a clean world: exit status and effects. *)
Definition run_main (a : args) : Z * world :=
  let '(o, _, w) := main a tt empty_world in (exit_status o, w).

End Script.
Global Arguments externals : clear implicits.

End AllAssets.

(* ===================================================================== *)
(** * scripts/generate-crystal-assets.py                                  *)
(* ===================================================================== *)

Module CrystalAssets.
Import Py.

(** Output directory for SVG files (line 19). *)
Definition OUTPUT_DIR : Path := Div (Div RepoRoot "public") "crystals".

(** This script reads [preset.cdl] directly: a preset is [None] or an
    object with a [cdl] attribute, itself [None] or a text. *)
Record preset := Preset { cdl : option string }.

(** [not preset or not preset.cdl] (line 49). *)
Definition no_cdl (p : option preset) : bool :=
  match p with
  | None => true
  | Some p =>
      match cdl p with
      | Some text => negb (bool_decide (text ≠ EmptyString))
      | None => true
      end
  end.

(** The filename stem of line 54. *)
Definition filename (name : string) : string :=
  replace "'" EmptyString (replace " " "-" (lower name)).

(** The mutable locals of [generate_assets]. *)
Record locals := Locals {
  success : nat;
  failed : list (string * string);
}.

(** The double quote character. *)
Definition dquote : ascii := ascii_of_nat 34.

(** The text of the placeholder below is written with a backquote wherever
    the source has a double quote; [quoted] puts the double quotes back. *)
Definition quoted (s : string) : string :=
  str_map (λ c, if decide (c = "`"%char) then dquote else c) s.

(** [generate_placeholder_svg] (lines 99-117): an f-string without any
    replacement field. *)
Definition generate_placeholder_svg (name : string) : string :=
  quoted "<svg viewBox=`-150 -150 300 300` xmlns=`http://www.w3.org/2000/svg`>
  <defs>
    <linearGradient id=`face1` x1=`0%` y1=`0%` x2=`100%` y2=`100%`>
      <stop offset=`0%` style=`stop-color:#0ea5e9;stop-opacity:0.8` />
      <stop offset=`100%` style=`stop-color:#0284c7;stop-opacity:0.9` />
    </linearGradient>
    <linearGradient id=`face2` x1=`0%` y1=`0%` x2=`100%` y2=`100%`>
      <stop offset=`0%` style=`stop-color:#38bdf8;stop-opacity:0.7` />
      <stop offset=`100%` style=`stop-color:#0ea5e9;stop-opacity:0.8` />
    </linearGradient>
  </defs>
  <polygon points=`0,-100 -80,0 0,100` fill=`url(#face2)` stroke=`#0369a1` stroke-width=`1.5` opacity=`0.6`/>
  <polygon points=`0,-100 0,100 80,0` fill=`url(#face1)` stroke=`#0369a1` stroke-width=`1.5` opacity=`0.7`/>
  <polygon points=`0,-100 -80,0 80,0` fill=`url(#face1)` stroke=`#0369a1` stroke-width=`2`/>
  <polygon points=`0,100 -80,0 80,0` fill=`url(#face2)` stroke=`#0369a1` stroke-width=`2`/>
</svg>".

(** The names of [generate_placeholder_assets] (lines 123-149). *)
Definition minerals : list string :=
  [ "alexandrite"; "almandine"; "amazonite"; "amethyst"; "andalusite";
    "apatite"; "aquamarine"; "beryl"; "calcite"; "carnelian";
    "chrysoberyl"; "chrysoprase"; "citrine"; "demantoid"; "diamond";
    "diopside"; "emerald"; "epidote"; "fluorite"; "garnet";
    "grossular"; "heliodor"; "hessonite"; "hiddenite"; "iolite";
    "jadeite"; "kunzite"; "kyanite"; "labradorite"; "lapis-lazuli";
    "malachite"; "moonstone"; "morganite"; "nephrite"; "opal";
    "orthoclase"; "peridot"; "pyrope"; "quartz"; "rhodolite";
    "ruby"; "sapphire"; "scapolite"; "sphene"; "spessartine";
    "spinel"; "spodumene"; "sunstone"; "tanzanite"; "topaz";
    "tourmaline"; "tsavorite"; "turquoise"; "zircon"; "zoisite";
    (* Additional varieties *)
    "rose-quartz"; "smoky-quartz"; "star-ruby"; "star-sapphire";
    "cats-eye-chrysoberyl"; "padparadscha"; "paraiba-tourmaline";
    "watermelon-tourmaline"; "rubellite"; "indicolite";
    (* Cubic minerals *)
    "pyrite"; "magnetite"; "galena";
    (* Hexagonal/Trigonal *)
    "corundum"; "hematite"; "cinnabar";
    (* Tetragonal *)
    "rutile"; "cassiterite"; "vesuvianite";
    (* Orthorhombic *)
    "olivine"; "barite"; "celestine";
    (* Monoclinic *)
    "gypsum"; "realgar"; "orpiment" ].

(** [[i/total] ] at the head of a progress line. *)
Definition progress (i total : nat) : string :=
  "[" +:+ str_of_nat i +:+ "/" +:+ str_of_nat total +:+ "] ".

(** The body of the placeholder loop (lines 158-164). *)
Definition write_placeholder (total i : nat) (name : string) : M unit unit :=
  let output_path := Div OUTPUT_DIR (name +:+ ".svg") in
  let svg_content := generate_placeholder_svg name in
  write_file output_path svg_content ;;
  print (Text (progress i total +:+ "OK: " +:+ name +:+ ".svg")).

(** [generate_placeholder_assets] (lines 120-169). *)
Definition generate_placeholder_assets : M unit unit :=
  mkdir OUTPUT_DIR ;;
  print (Text ("Generating " +:+ str_of_nat (length minerals)
               +:+ " placeholder SVG assets...")) ;;
  print (TextPath "Output directory: " OUTPUT_DIR) ;;
  print (Text (repeat_str "-" 50)) ;;
  for_each (enumerate 1 minerals) (λ '(i, name),
    write_placeholder (length minerals) i name) ;;
  print (Text (repeat_str "-" 50)) ;;
  print (Text ("Generated: " +:+ str_of_nat (length minerals)
               +:+ " placeholder SVG files")) ;;
  print (Text "
Note: These are placeholder octahedron shapes.") ;;
  print (Text "Install the gemmology packages for accurate crystal rendering.").

Section Script.

Context {Desc Geometry : Type}.

Record externals := Externals {
  import_error : option string;    (* the imports of lines 25-28 fail *)
  list_presets : list string;
  get_preset : string → option preset;
  parse_cdl : string → result Desc;
  cdl_to_geometry : Desc → result Geometry;
  generate_svg : Geometry → Path → result string;
}.

Context (ext : externals).

(** The imports of lines 24-33. *)
Definition import_packages : M locals unit :=
  try_except
    (match import_error ext with
     | Some msg => raise (ImportError msg)
     | None => mret tt
     end)
    is_ImportError
    (λ e,
      print (Text ("Error: Missing required package: " +:+ exn_str e)) ;;
      print (Text "
Install required packages:") ;;
      print (Text "  pip install cdl-parser crystal-geometry crystal-renderer mineral-database") ;;
      sys_exit 1).

(** [success += 1]. *)
Definition add_success : M locals unit :=
  λ l w, (Returned tt, Locals (S (success l)) (failed l), w).

(** [failed.append((name, error))]. *)
Definition append_failed (name error : string) : M locals unit :=
  λ l w, (Returned tt, Locals (success l) (failed l ++ [(name, error)]), w).

(** The body of the preset loop (lines 48-86). *)
Definition process_preset (total i : nat) (name : string) : M locals unit :=
  let preset := get_preset ext name in
  if no_cdl preset then
    print (Text (progress i total +:+ "SKIP: " +:+ name +:+ " (no CDL)"))
  else
    match preset ≫= cdl with
    | Some text =>
        let filename := filename name in
        let output_path := Div OUTPUT_DIR (filename +:+ ".svg") in
        try_except
          (desc ← call (parse_cdl ext text);
           geom ← call (cdl_to_geometry ext desc);
           call_exporter "generate_svg" output_path
             (generate_svg ext geom output_path) ;;
           print (Text (progress i total +:+ "OK: " +:+ name +:+ " -> "
                        +:+ filename +:+ ".svg")) ;;
           add_success)
          is_Exception
          (λ e,
            print (Text (progress i total +:+ "FAIL: " +:+ name +:+ " - "
                         +:+ exn_str e)) ;;
            append_failed name (exn_str e))
    | None => mret tt   (* excluded by [no_cdl] *)
    end.

(** [generate_assets] (lines 22-96). *)
Definition generate_assets : M locals (nat * list (string * string)) :=
  import_packages ;;
  mkdir OUTPUT_DIR ;;
  let presets := list_presets ext in
  let total := length presets in
  set_locals (Locals 0 []) ;;
  print (Text ("Generating " +:+ str_of_nat total +:+ " crystal SVG assets...")) ;;
  print (TextPath "Output directory: " OUTPUT_DIR) ;;
  print (Text (repeat_str "-" 50)) ;;
  for_each (enumerate 1 presets) (λ '(i, name), process_preset total i name) ;;
  print (Text (repeat_str "-" 50)) ;;
  l ← get_locals;
  print (Text ("Generated: " +:+ str_of_nat (success l) +:+ "/"
               +:+ str_of_nat total +:+ " SVG files")) ;;
  (if bool_decide (failed l ≠ []) then
     print (Text ("
Failed (" +:+ str_of_nat (length (failed l)) +:+ "):")) ;;
     for_each (failed l) (λ '(name, error),
       print (Text ("  - " +:+ name +:+ ": " +:+ error)))
   else mret tt) ;;
  mret (success l, failed l).

(** The [__main__] block (lines 172-194); [placeholder] is the
    [--placeholder] flag. *)
Definition main (placeholder : bool) : M unit unit :=
  if placeholder then generate_placeholder_assets
  else
    try_except
      (call_function generate_assets (Locals 0 []) ;; mret tt)
      is_ImportError
      (λ _,
        print (Text "
Gemmology packages not found. Generating placeholders instead.") ;;
        print (Text "Use --placeholder flag to skip this check.
") ;;
        generate_placeholder_assets).

(** Running the script from a clean world: exit status and effects. *)
Definition run_main (placeholder : bool) : Z * world :=
  let '(o, _, w) := main placeholder tt empty_world in (exit_status o, w).

End Script.
Global Arguments externals : clear implicits.

End CrystalAssets.

(* ===================================================================== *)
(** * Sample runs                                                         *)
(* ===================================================================== *)

(** Small collaborators on which the statements below are exercised: four
    presets, one of them unknown to the database, one whose description does
    not parse, and a glTF exporter that raises on "Quartz". *)
Module Sample.
Import Py.

Definition names : list string :=
  ["Quartz"; "Lapis Lazuli (Var.)"; "Ghost"; "Bad Geo"].

Definition all_ext : AllAssets.externals unit unit unit :=
  AllAssets.Externals None None names
    (λ name,
      if bool_decide (name = "Ghost") then AllAssets.PresetNone
      else if bool_decide (name = "Quartz")
           then AllAssets.PresetDict {[ "cdl" := "cubic[m3m]:{111}" ]}
           else AllAssets.PresetObject (Some name))
    (λ cdl, if bool_decide (cdl = "Bad Geo") then Raises "parse error" else Ok tt)
    (λ _, Ok tt)
    (λ _, Ok tt)
    (λ _ _, Ok "<svg/>")
    (λ _ _, Ok "solid")
    (λ _ _ name, if bool_decide (name = "Quartz") then Raises "no mesh" else Ok "glTF")
    (λ _ _ _, Ok "o quartz").

Definition crystal_ext (import_error : option string)
    : CrystalAssets.externals unit unit :=
  CrystalAssets.Externals import_error names
    (λ name,
      if bool_decide (name = "Ghost") then None
      else Some (CrystalAssets.Preset (Some name)))
    (λ cdl, if bool_decide (cdl = "Bad Geo") then Raises "parse error" else Ok tt)
    (λ _, Ok tt)
    (λ _ _, Ok "<svg/>").

End Sample.

(* ===================================================================== *)
(** * The specification's wording                                         *)
(* ===================================================================== *)

Module Wording.
Import Py.

(** "Lowercased, with every space replaced by a hyphen and every occurrence
    of the characters ', (, ) removed", read one character at a time. *)
Definition stem_char (c : ascii) : string :=
  if decide (c = " "%char) then "-"
  else if decide (c = "'"%char ∨ c = "("%char ∨ c = ")"%char) then EmptyString
  else String (lower_char c) EmptyString.

Fixpoint stem (name : string) : string :=
  match name with
  | EmptyString => EmptyString
  | String c name' => stem_char c +:+ stem name'
  end.


(** "[hay] contains [needle] as a substring". *)
Definition substring_of (needle hay : string) : Prop :=
  ∃ before after, hay = before +:+ needle +:+ after.

(** The number of places at which [needle] starts in [hay]. *)
Fixpoint occurrences (needle hay : string) : nat :=
  (if String.prefix needle hay then 1 else 0) +
  match hay with
  | EmptyString => 0
  | String _ hay' => occurrences needle hay'
  end.

End Wording.

(* ===================================================================== *)
(** * Reading the scripts' effects                                        *)
(* ===================================================================== *)

(** Character-wise views of the string transformations, and the effects of
    a whole run written as functions of the collaborators. *)
Module Effects.
Import Py.



(** [c in s] for a character [c]. *)
Definition has_char (c : ascii) (s : string) : bool :=
  contains (String c EmptyString) s.


(** A format name as a user may type it: upper case, with [before] spaces in
    front and [after] spaces behind. *)
Definition typed_format (fmt : string) (pads : nat * nat) : string :=
  repeat_str " " pads.1 +:+ upper fmt +:+ repeat_str " " pads.2.

Section AllAssets.
Import AllAssets.
Context {Desc Geometry Arrays : Type}.
Context (ext : externals Desc Geometry Arrays).

(** What the preset loop does with a name before the format loop: [None]
    for a preset that is skipped, otherwise the outcome of lines 81-87. *)
Definition preset_build (name : string) : option (result Arrays) :=
  if no_cdl (get_preset ext name) then None
  else build_geometry ext <$> preset_cdl (get_preset ext name).

(** The exporter invocations and the files of one preset. *)
Definition preset_calls (formats : list string) (name : string)
    : list (string * Path) :=
  match preset_build name with
  | Some (Ok arrays) => invocations ext name (normalize_filename name) arrays formats
  | _ => []
  end.

Definition preset_files (formats : list string) (name : string)
    : list (Path * string) :=
  match preset_build name with
  | Some (Ok arrays) => written ext name (normalize_filename name) arrays formats
  | _ => []
  end.

(** The entry of format [fmt] after one preset. *)
Definition preset_stat (formats : list string) (fmt : string) (s : stat)
    (name : string) : stat :=
  match preset_build name with
  | None => s
  | Some (Raises _) =>
      Stat (success s) (failed s ++ replicate (requests fmt formats) name)
  | Some (Ok arrays) =>
      after_rounds name (requests fmt formats)
        (exporter_result ext name (normalize_filename name) arrays fmt) s
  end.

(** The presets that reach the outer [try]. *)
Definition described (presets : list string) : list string :=
  filter (λ name, is_Some (preset_build name)) presets.

End AllAssets.

Section CrystalAssets.
Import CrystalAssets.
Context {Desc Geometry : Type}.
Context (ext : externals Desc Geometry).

(** What the SVG-only loop does with a name: [None] for a preset that is
    skipped, otherwise the outcome of lines 57-79 (the text of the file, or
    the message of the step that raised). *)
Definition render (name : string) : option (result string) :=
  if no_cdl (get_preset ext name) then None
  else
    (λ text,
      match parse_cdl ext text with
      | Ok desc =>
          match cdl_to_geometry ext desc with
          | Ok geom =>
              generate_svg ext geom (Div OUTPUT_DIR (filename name +:+ ".svg"))
          | Raises msg => Raises msg
          end
      | Raises msg => Raises msg
      end) <$> (get_preset ext name ≫= cdl).

(** The files, the failures and the exporter invocations of a run. *)
Definition rendered_file (name : string) : option (Path * string) :=
  match render name with
  | Some (Ok content) => Some (Div OUTPUT_DIR (filename name +:+ ".svg"), content)
  | _ => None
  end.

Definition render_failure (name : string) : option (string * string) :=
  match render name with
  | Some (Raises msg) => Some (name, msg)
  | _ => None
  end.

End CrystalAssets.

End Effects.

(* ===================================================================== *)
(** * Facts about the Python fragment                                     *)
(* ===================================================================== *)

Section StringFacts.
Import Py Wording.

Lemma app_nil_l (s : string) : EmptyString +:+ s = s.
Proof. reflexivity. Qed.

Lemma app_cons (c : ascii) (s t : string) : String c s +:+ t = String c (s +:+ t).
Proof. reflexivity. Qed.

Lemma app_empty_r (s : string) : s +:+ EmptyString = s.
Proof. induction s as [|c s IH]; [done|]. by rewrite app_cons, IH. Qed.

Lemma app_assoc_str (s t u : string) : (s +:+ t) +:+ u = s +:+ t +:+ u.
Proof. induction s as [|c s IH]; [done|]. by rewrite !app_cons, IH. Qed.

Lemma prefix_empty (s : string) : String.prefix EmptyString s = true.
Proof. by destruct s. Qed.

Lemma prefix_app (p s : string) : String.prefix p (p +:+ s) = true.
Proof.
  induction p as [|c p IH]; [apply prefix_empty|].
  rewrite app_cons. cbn. destruct (ascii_dec c c); [exact IH | done].
Qed.

Lemma prefix_inv (p s : string) :
  String.prefix p s = true → ∃ rest, s = p +:+ rest.
Proof.
  revert s. induction p as [|c p IH]; intros s Hp.
  - by exists s.
  - destruct s as [|d s]; [done|]. cbn in Hp.
    destruct (ascii_dec c d) as [->|]; [|done].
    destruct (IH _ Hp) as [rest ->]. by exists rest.
Qed.

(** [needle in hay] decides the substring relation. *)
Lemma contains_spec (needle hay : string) :
  contains needle hay = true ↔ substring_of needle hay.
Proof.
  induction hay as [|c hay IH].
  - cbn [contains]. rewrite orb_false_r. split.
    + intros Hp. destruct (prefix_inv _ _ Hp) as [rest ->].
      by exists EmptyString, rest.
    + intros ([|b before] & after & Heq); [|done].
      rewrite app_nil_l in Heq. rewrite Heq. apply prefix_app.
  - cbn [contains]. rewrite orb_true_iff, IH. split.
    + intros [Hp | (before & after & ->)].
      * destruct (prefix_inv _ _ Hp) as [rest ->]. by exists EmptyString, rest.
      * by exists (String c before), after.
    + intros ([|b before] & after & Heq).
      * left. rewrite app_nil_l in Heq. rewrite Heq. apply prefix_app.
      * right. rewrite app_cons in Heq. injection Heq as -> ->.
        by exists before, after.
Qed.

Example lower_example : lower "Lapis Lazuli (Var.)" = "lapis lazuli (var.)".
Proof. reflexivity. Qed.

Example replace_example : replace "ab" "X" "cababab-abb" = "cXXX-Xb".
Proof. reflexivity. Qed.

Example replace_overlap_example : replace "aa" "b" "aaaaa" = "bba".
Proof. reflexivity. Qed.

Example split_example : split "," "svg, STL,,obj" = ["svg"; " STL"; EmptyString; "obj"].
Proof. reflexivity. Qed.

Example strip_example : strip "  gl tf " = "gl tf".
Proof. reflexivity. Qed.

Example contains_example :
  contains "art" "quartz" = true ∧ contains "qz" "quartz" = false
  ∧ contains EmptyString "quartz" = true.
Proof. done. Qed.



End StringFacts.

(* ===================================================================== *)
(** * Filename stems                                                      *)
(* ===================================================================== *)

Section Stems.
Import Py Wording.







(** C3.  On the name "Lapis Lazuli (Var.)" the multi-format script and the
    specification's wording give the stem "lapis-lazuli-var.", while the
    SVG-only script keeps the parentheses and names its file
    "lapis-lazuli-(var.).svg". *)
Theorem lapis_lazuli_stems :
  AllAssets.normalize_filename "Lapis Lazuli (Var.)" = "lapis-lazuli-var."
  ∧ stem "Lapis Lazuli (Var.)" = "lapis-lazuli-var."
  ∧ CrystalAssets.filename "Lapis Lazuli (Var.)" = "lapis-lazuli-(var.)"
  ∧ CrystalAssets.filename "Lapis Lazuli (Var.)"
    ≠ AllAssets.normalize_filename "Lapis Lazuli (Var.)".
Proof. by vm_compute. Qed.

End Stems.

(* ===================================================================== *)
(** * Preset selection                                                    *)
(* ===================================================================== *)

Section Selection.
Import Py Wording.

(** The substring relation is decided by Python's [in]. *)
Global Instance substring_of_dec (needle hay : string) :
  Decision (substring_of needle hay).
Proof.
  destruct (contains needle hay) eqn:Hc.
  - left. by apply contains_spec.
  - right. intros Hs. apply contains_spec in Hs. congruence.
Defined.




End Selection.

(* ===================================================================== *)
(** * The multi-format script                                             *)
(* ===================================================================== *)

Section AllAssetsFacts.
Import Py AllAssets.

Context {Desc Geometry Arrays : Type}.
Context (ext : externals Desc Geometry Arrays).

Implicit Types (stats : gmap string stat) (w : world) (fmt name : string).

Ltac run :=
  repeat progress
    (unfold mbind, mret, M_bind, M_ret, call, sys_exit, bind, ret, raise,
       try_except, print, set_locals, get_locals, mkdir; cbn beta iota).

Lemma output_dirs_lookup fmt :
  OUTPUT_DIRS !! fmt =
    if bool_decide (fmt = "svg") then Some (Div BASE_DIR "crystals")
    else if bool_decide (fmt = "stl") then Some (Div (Div BASE_DIR "models") "stl")
    else if bool_decide (fmt = "gltf") then Some (Div (Div BASE_DIR "models") "gltf")
    else if bool_decide (fmt = "obj") then Some (Div (Div BASE_DIR "models") "obj")
    else None.
Proof.
  unfold OUTPUT_DIRS. repeat case_bool_decide; subst; try reflexivity.
  by rewrite !lookup_insert_ne, ?lookup_singleton_ne, ?lookup_empty.
Qed.

Lemma output_dirs_valid :
  OUTPUT_DIRS !! "svg" = Some (Div BASE_DIR "crystals")
  ∧ OUTPUT_DIRS !! "stl" = Some (Div (Div BASE_DIR "models") "stl")
  ∧ OUTPUT_DIRS !! "gltf" = Some (Div (Div BASE_DIR "models") "gltf")
  ∧ OUTPUT_DIRS !! "obj" = Some (Div (Div BASE_DIR "models") "obj").
Proof. done. Qed.

Ltac dirs :=
  destruct output_dirs_valid as (Hsvg & Hstl & Hgltf & Hobj);
  rewrite ?Hsvg, ?Hstl, ?Hgltf, ?Hobj.

Lemma add_success_run fmt stats w s :
  stats !! fmt = Some s →
  add_success fmt stats w
  = (Returned tt, <[fmt := Stat (S (success s)) (failed s)]> stats, w).
Proof. intros Hs. unfold add_success, get_stat, set_stat. run. by rewrite Hs. Qed.

Lemma append_failed_run fmt name stats w s :
  stats !! fmt = Some s →
  append_failed fmt name stats w
  = (Returned tt, <[fmt := Stat (success s) (failed s ++ [name])]> stats, w).
Proof. intros Hs. unfold append_failed, get_stat, set_stat. run. by rewrite Hs. Qed.

Lemma export_format_ok name filename arrays fmt stats w s f p line content :
  exporter_call ext name filename arrays fmt = Some (f, p, line, Ok content) →
  stats !! fmt = Some s →
  export_format ext name filename arrays fmt stats w
  = (Returned tt, <[fmt := Stat (S (success s)) (failed s)]> stats,
     w_print (Text line) (w_write p content (w_call f p w))).
Proof.
  intros Hcall Hs. unfold exporter_call in Hcall. unfold export_format.
  repeat case_bool_decide; simplify_eq; run;
    unfold output_dir, call_exporter; dirs; run;
    match goal with H : _ = Ok _ |- _ => rewrite H end;
    erewrite add_success_run by done; done.
Qed.

Lemma export_format_raises name filename arrays fmt stats w s f p line msg :
  exporter_call ext name filename arrays fmt = Some (f, p, line, Raises msg) →
  stats !! fmt = Some s →
  export_format ext name filename arrays fmt stats w
  = (Returned tt, <[fmt := Stat (success s) (failed s ++ [name])]> stats,
     w_print (Text ("    ✗ " +:+ upper fmt +:+ " error: " +:+ msg)) (w_call f p w)).
Proof.
  intros Hcall Hs. unfold exporter_call in Hcall. unfold export_format.
  repeat case_bool_decide; simplify_eq; run;
    unfold output_dir, call_exporter; dirs; run;
    match goal with H : _ = Raises _ |- _ => rewrite H end;
    cbn; erewrite append_failed_run by done; done.
Qed.

Lemma export_format_unknown name filename arrays fmt stats w :
  exporter_call ext name filename arrays fmt = None →
  export_format ext name filename arrays fmt stats w = (Returned tt, stats, w).
Proof.
  intros Hcall. unfold exporter_call in Hcall. unfold export_format.
  by repeat case_bool_decide.
Qed.

Lemma covers_cons stats fmt formats :
  covers stats (fmt :: formats) ↔ is_Some (stats !! fmt) ∧ covers stats formats.
Proof. unfold covers. by rewrite Forall_cons. Qed.

Lemma covers_dom stats stats' formats :
  dom stats' = dom stats → covers stats formats → covers stats' formats.
Proof.
  intros Hdom Hcov. eapply Forall_impl; [exact Hcov|]. intros g Hg.
  apply elem_of_dom. rewrite Hdom. by apply elem_of_dom.
Qed.

Lemma dom_insert_present stats fmt (s s' : stat) :
  stats !! fmt = Some s → dom (<[fmt := s']> stats) = dom stats.
Proof.
  intros Hs. rewrite dom_insert_L. apply subseteq_union_1_L.
  apply singleton_subseteq_l, elem_of_dom. eauto.
Qed.

Lemma requests_cons fmt g formats :
  requests fmt (g :: formats)
  = (if decide (g = fmt) then 1 else 0) + requests fmt formats.
Proof. unfold requests. rewrite filter_cons. by case_decide. Qed.

Lemma after_rounds_0 {A} name (r : option (result A)) (s : stat) :
  after_rounds name 0 r s = s.
Proof.
  destruct s as [n l], r as [[|]|]; cbn; [|by rewrite app_nil_r|done].
  by rewrite Nat.add_0_r.
Qed.

Lemma after_rounds_S {A} name n (r : option (result A)) (s : stat) :
  after_rounds name n r (after_rounds name 1 r s) = after_rounds name (S n) r s.
Proof.
  destruct r as [[|]|]; cbn; [|by rewrite <- app_assoc|done].
  f_equal. lia.
Qed.

(** One round of the format loop always returns, whatever the exporter
    does, and touches the entry of its own format only. *)
Lemma export_format_run name filename arrays fmt stats w :
  is_Some (stats !! fmt) →
  ∃ stats' lines,
    export_format ext name filename arrays fmt stats w
    = (Returned tt, stats',
       World (stdout w ++ lines) (dirs w)
         (calls w ++ invocations ext name filename arrays [fmt])
         (files w ++ written ext name filename arrays [fmt]))
    ∧ dom stats' = dom stats
    ∧ ∀ g s, stats !! g = Some s →
        stats' !! g
        = Some (after_rounds name (requests g [fmt])
                  (exporter_result ext name filename arrays g) s).
Proof.
  intros [s Hs]. unfold invocations, written, exporter_result.
  cbn [omap list_omap].
  assert (Hother : ∀ g s' (x : stat), stats !! g = Some s' →
            <[fmt := x]> stats !! g
            = Some (if decide (fmt = g) then x else s')).
  { intros g s' x Hg. rewrite lookup_insert. by case_decide. }
  destruct (exporter_call ext name filename arrays fmt)
    as [[[[f p] line] [content|msg]]|] eqn:Hcall; cbn [fmap option_fmap option_map fst snd].
  - eexists _, [_]. split; [by erewrite export_format_ok|].
    split; [by eapply dom_insert_present|].
    intros g s' Hg. rewrite (Hother _ _ _ Hg), requests_cons.
    case_decide as Heq; [subst g|by rewrite after_rounds_0].
    rewrite Hcall. simplify_eq. cbn. by rewrite Nat.add_1_r.
  - eexists _, [_]. split.
    { erewrite export_format_raises by done. unfold w_print, w_call; cbn.
      by rewrite app_nil_r. }
    split; [by eapply dom_insert_present|].
    intros g s' Hg. rewrite (Hother _ _ _ Hg), requests_cons.
    case_decide as Heq; [subst g|by rewrite after_rounds_0].
    rewrite Hcall. by simplify_eq.
  - exists stats, []. split.
    { rewrite export_format_unknown by done. destruct w; cbn.
      by rewrite !app_nil_r. }
    split; [done|]. intros g s' Hg. rewrite Hg, requests_cons.
    case_decide as Heq; [subst g|by rewrite after_rounds_0].
    by rewrite Hcall.
Qed.

Lemma invocations_cons name filename arrays fmt formats :
  invocations ext name filename arrays (fmt :: formats)
  = invocations ext name filename arrays [fmt]
    ++ invocations ext name filename arrays formats.
Proof.
  unfold invocations. cbn [omap list_omap].
  by destruct (exporter_call ext name filename arrays fmt).
Qed.

Lemma written_cons name filename arrays fmt formats :
  written ext name filename arrays (fmt :: formats)
  = written ext name filename arrays [fmt]
    ++ written ext name filename arrays formats.
Proof.
  unfold written. cbn [omap list_omap].
  by destruct (exporter_call ext name filename arrays fmt)
    as [[[[f p] line] [content|msg]]|].
Qed.

(** The format loop always runs to its end: every requested format gets its
    exporter invoked, the files of those that returned are written, and each
    entry of [stats] counts the rounds of its own format. *)
Lemma export_formats_run name filename arrays formats stats w :
  covers stats formats →
  ∃ stats' lines,
    export_formats ext name filename arrays formats stats w
    = (Returned tt, stats',
       World (stdout w ++ lines) (dirs w)
         (calls w ++ invocations ext name filename arrays formats)
         (files w ++ written ext name filename arrays formats))
    ∧ dom stats' = dom stats
    ∧ ∀ g s, stats !! g = Some s →
        stats' !! g
        = Some (after_rounds name (requests g formats)
                  (exporter_result ext name filename arrays g) s).
Proof.
  revert stats w. induction formats as [|fmt formats IH]; intros stats w Hcov.
  - exists stats, []. split; [|split; [done|]].
    + destruct w; cbn. by rewrite !app_nil_r.
    + intros g s Hg. by rewrite Hg, after_rounds_0.
  - apply covers_cons in Hcov as [Hfmt Hcov].
    destruct (export_format_run name filename arrays fmt stats w Hfmt)
      as (stats1 & lines1 & Hrun1 & Hdom1 & Hstat1).
    destruct (IH stats1
                (World (stdout w ++ lines1) (dirs w)
                   (calls w ++ invocations ext name filename arrays [fmt])
                   (files w ++ written ext name filename arrays [fmt])))
      as (stats2 & lines2 & Hrun2 & Hdom2 & Hstat2).
    { by eapply covers_dom. }
    exists stats2, (lines1 ++ lines2). split; [|split; [congruence|]].
    + rewrite invocations_cons, written_cons.
      unfold export_formats in *. cbn [for_each]. unfold bind.
      rewrite Hrun1, Hrun2. by rewrite !app_assoc.
    + intros g s Hg. rewrite (Hstat2 _ _ (Hstat1 _ _ Hg)), !requests_cons.
      case_decide; cbn [Nat.add]; [|by rewrite after_rounds_0].
      by rewrite after_rounds_S.
Qed.

(** The handler of the outer [try] (lines 135-136) marks the preset as
    failed once for every request of every format. *)
Lemma fail_all_run name formats stats w :
  covers stats formats →
  ∃ stats',
    for_each formats (λ fmt, append_failed fmt name) stats w
    = (Returned tt, stats', w)
    ∧ dom stats' = dom stats
    ∧ ∀ g s, stats !! g = Some s →
        stats' !! g
        = Some (Stat (success s) (failed s ++ replicate (requests g formats) name)).
Proof.
  pose (r := Some (@Raises unit EmptyString)).
  revert stats w. induction formats as [|fmt formats IH]; intros stats w Hcov.
  - exists stats. split; [done|split; [done|]].
    intros g s Hg. rewrite Hg. f_equal. symmetry. apply (after_rounds_0 name r).
  - apply covers_cons in Hcov as [[s0 Hfmt] Hcov].
    destruct (IH (<[fmt := Stat (success s0) (failed s0 ++ [name])]> stats) w)
      as (stats2 & Hrun2 & Hdom2 & Hstat2).
    { eapply covers_dom; [|done]. by eapply dom_insert_present. }
    exists stats2. split; [|split].
    + cbn [for_each]. unfold bind.
      by rewrite (append_failed_run _ _ _ _ _ Hfmt), Hrun2.
    + rewrite Hdom2. by eapply dom_insert_present.
    + intros g s Hg. rewrite requests_cons.
      destruct (decide (fmt = g)) as [->|Hne].
      * rewrite (Hstat2 g (Stat (success s0) (failed s0 ++ [name]))).
        2:{ by rewrite lookup_insert_eq. }
        simplify_eq. cbn. by rewrite <- app_assoc.
      * rewrite (Hstat2 g s); [done|]. by rewrite lookup_insert_ne.
Qed.

(** With the arrays built, the outer [try] is the format loop. *)
Lemma build_and_export_built formats name filename cdl arrays stats w :
  build_geometry ext cdl = Ok arrays →
  covers stats formats →
  build_and_export ext formats name filename cdl stats w
  = export_formats ext name filename arrays formats stats w.
Proof.
  intros Hbuild Hcov. unfold build_and_export, build_geometry in *.
  destruct (export_formats_run name filename arrays formats stats w Hcov)
    as (stats' & lines & Hrun & _).
  destruct (parse_cdl ext cdl) as [desc|]; [run|done].
  destruct (cdl_to_geometry ext desc) as [geom|]; [run|done].
  rewrite Hbuild. run. by rewrite Hrun.
Qed.

(** With a step of lines 81-87 raising, the outer [try] is its handler. *)
Lemma build_and_export_failed formats name filename cdl msg stats w :
  build_geometry ext cdl = Raises msg →
  build_and_export ext formats name filename cdl stats w
  = for_each formats (λ fmt, append_failed fmt name) stats
      (w_print (Text ("    ✗ Geometry error: " +:+ msg)) w).
Proof.
  intros Hbuild. unfold build_and_export, build_geometry in *.
  destruct (parse_cdl ext cdl) as [desc|]; run; [|by simplify_eq].
  destruct (cdl_to_geometry ext desc) as [geom|]; run; [|by simplify_eq].
  by rewrite Hbuild.
Qed.

(** A preset with a description goes through the outer [try]. *)
Lemma process_preset_with_cdl formats total i name cdl stats w :
  no_cdl (get_preset ext name) = false →
  preset_cdl (get_preset ext name) = Some cdl →
  process_preset ext formats total i name stats w
  = build_and_export ext formats name (normalize_filename name) cdl stats
      (w_print (Text (progress i total +:+ name)) w).
Proof. intros Hno Hcdl. unfold process_preset. by rewrite Hno, Hcdl. Qed.

Lemma invoked_in name filename arrays formats g f p line r :
  g ∈ formats →
  exporter_call ext name filename arrays g = Some (f, p, line, r) →
  (f, p) ∈ invocations ext name filename arrays formats.
Proof.
  intros Hg Hcall. apply list_elem_of_omap. exists g. split; [done|].
  by rewrite Hcall.
Qed.

Lemma written_in name filename arrays formats g f p line content :
  g ∈ formats →
  exporter_call ext name filename arrays g = Some (f, p, line, Ok content) →
  (p, content) ∈ written ext name filename arrays formats.
Proof.
  intros Hg Hcall. apply list_elem_of_omap. exists g. split; [done|].
  by rewrite Hcall.
Qed.

Lemma requested_positive fmt formats : fmt ∈ formats → 0 < requests fmt formats.
Proof.
  intros Hin. unfold requests.
  assert (Hf : fmt ∈ filter (λ g, g = fmt) formats)
    by by apply list_elem_of_filter.
  destruct (filter (λ g, g = fmt) formats); [by apply elem_of_nil in Hf|cbn; lia].
Qed.

(** C1.  For a preset whose geometry was built, if the exporter of a
    requested format raises, the preset still runs to its end: the exporter
    of every requested format is invoked, each one that returns has its file
    written and its success counted, and the preset's name is appended to
    the failed list of the format whose exporter raised, and to no list of a
    format whose exporter returned. *)
Theorem export_failure_isolated formats total i name cdl arrays fmt f p line msg
    stats w :
  no_cdl (get_preset ext name) = false →
  preset_cdl (get_preset ext name) = Some cdl →
  build_geometry ext cdl = Ok arrays →
  fmt ∈ formats →
  exporter_call ext name (normalize_filename name) arrays fmt
    = Some (f, p, line, Raises msg) →
  covers stats formats →
  ∃ stats' w',
    process_preset ext formats total i name stats w = (Returned tt, stats', w')
    ∧ calls w'
      = calls w ++ invocations ext name (normalize_filename name) arrays formats
    ∧ files w'
      = files w ++ written ext name (normalize_filename name) arrays formats
    ∧ (f, p) ∈ invocations ext name (normalize_filename name) arrays formats
    ∧ (∀ s, stats !! fmt = Some s →
         stats' !! fmt
         = Some (Stat (success s)
                   (failed s ++ replicate (requests fmt formats) name)))
    ∧ (∀ g s f' p' line' content,
         g ∈ formats →
         stats !! g = Some s →
         exporter_call ext name (normalize_filename name) arrays g
           = Some (f', p', line', Ok content) →
         stats' !! g = Some (Stat (success s + requests g formats) (failed s))
         ∧ (f', p') ∈ invocations ext name (normalize_filename name) arrays formats
         ∧ (p', content) ∈ written ext name (normalize_filename name) arrays formats).
Proof.
  intros Hno Hcdl Hbuild Hin Hcall Hcov.
  rewrite (process_preset_with_cdl _ _ _ _ _ _ _ Hno Hcdl).
  rewrite (build_and_export_built _ _ _ _ _ _ _ Hbuild Hcov).
  destruct (export_formats_run name (normalize_filename name) arrays formats
              stats (w_print (Text (progress i total +:+ name)) w) Hcov)
    as (stats' & lines & Hrun & _ & Hstat).
  eexists _, _. split; [exact Hrun|]. cbn [calls files w_print].
  split; [done|]. split; [done|]. split; [by eapply invoked_in|]. split.
  - intros s Hs. rewrite (Hstat _ _ Hs). unfold exporter_result.
    by rewrite Hcall.
  - intros g s f' p' line' content Hg Hs Hok. split; [|split].
    + rewrite (Hstat _ _ Hs). unfold exporter_result. by rewrite Hok.
    + by eapply invoked_in.
    + by eapply written_in.
Qed.

(** C2.  For a selected preset with a description, if parsing it or building
    the geometry raises, the preset's name is appended to the failed list of
    every requested format, nothing but two lines of output happens (no
    exporter is invoked and no file is written), and the loop goes on with
    the next preset. *)
Theorem geometry_failure_fails_every_format formats total i name cdl msg
    stats w :
  no_cdl (get_preset ext name) = false →
  preset_cdl (get_preset ext name) = Some cdl →
  build_geometry ext cdl = Raises msg →
  covers stats formats →
  ∃ stats' w',
    process_preset ext formats total i name stats w = (Returned tt, stats', w')
    ∧ stdout w'
      = stdout w ++ [Text (progress i total +:+ name);
                     Text ("    ✗ Geometry error: " +:+ msg)]
    ∧ dirs w' = dirs w ∧ calls w' = calls w ∧ files w' = files w
    ∧ (∀ fmt, fmt ∈ formats →
         ∃ s, stats !! fmt = Some s
           ∧ 0 < requests fmt formats
           ∧ stats' !! fmt
             = Some (Stat (success s)
                       (failed s ++ replicate (requests fmt formats) name)))
    ∧ (∀ rest,
         for_each ((i, name) :: rest)
           (λ '(i, name), process_preset ext formats total i name) stats w
         = for_each rest
             (λ '(i, name), process_preset ext formats total i name) stats' w').
Proof.
  intros Hno Hcdl Hbuild Hcov.
  destruct (fail_all_run name formats stats
              (w_print (Text ("    ✗ Geometry error: " +:+ msg))
                 (w_print (Text (progress i total +:+ name)) w)) Hcov)
    as (stats' & Hrun & _ & Hstat).
  assert (Hstep : process_preset ext formats total i name stats w
                  = (Returned tt, stats',
                     w_print (Text ("    ✗ Geometry error: " +:+ msg))
                       (w_print (Text (progress i total +:+ name)) w))).
  { rewrite (process_preset_with_cdl _ _ _ _ _ _ _ Hno Hcdl).
    by rewrite (build_and_export_failed _ _ _ _ _ _ _ Hbuild). }
  eexists _, _. split; [exact Hstep|]. cbn [stdout dirs calls files w_print].
  repeat split.
  - by rewrite <- app_assoc.
  - intros fmt Hfmt.
    destruct (proj1 (Forall_forall _ _) Hcov fmt Hfmt) as [s Hs].
    exists s. auto using requested_positive.
  - intros rest. cbn [for_each]. unfold bind. by rewrite Hstep.
Qed.

(** Whatever happens to [stats], a round writes what its exporter wrote. *)
Lemma export_format_files name filename arrays fmt stats w o stats' w' :
  export_format ext name filename arrays fmt stats w = (o, stats', w') →
  files w' = files w ++ written ext name filename arrays [fmt].
Proof.
  unfold export_format, written, exporter_call. cbn [omap list_omap].
  repeat case_bool_decide; simplify_eq; run;
    unfold output_dir, call_exporter; dirs; run;
    try match goal with
      | |- context [match ?r with Ok _ => _ | Raises _ => _ end] =>
          destruct r; run
      end;
    unfold append_failed, add_success, get_stat, set_stat; run;
    try (destruct (stats !! _) eqn:Hs; run; cbn [is_Exception]; run;
         rewrite ?Hs; run);
    intros; simplify_eq; cbn; by rewrite ?app_nil_r.
Qed.

(** C10.  A successful "gltf" round writes [<stem>.glb] under the gltf
    directory, and whatever a round of a valid format writes, it writes
    under that format's directory, with the format name as extension for
    svg, stl and obj and with [.glb] for gltf. *)
Theorem gltf_is_written_as_glb name arrays stats w :
  (∀ s content,
     stats !! "gltf" = Some s →
     export_gltf ext arrays
       (Div (Div (Div (Div RepoRoot "public") "models") "gltf")
          (normalize_filename name +:+ ".glb")) name = Ok content →
     ∃ w',
       export_format ext name (normalize_filename name) arrays "gltf" stats w
       = (Returned tt, <["gltf" := Stat (S (success s)) (failed s)]> stats, w')
       ∧ files w'
         = files w ++ [(Div (Div (Div (Div RepoRoot "public") "models") "gltf")
                          (normalize_filename name +:+ ".glb"), content)])
  ∧ (∀ fmt dir o stats' w' p content,
       OUTPUT_DIRS !! fmt = Some dir →
       export_format ext name (normalize_filename name) arrays fmt stats w
         = (o, stats', w') →
       (p, content) ∈ files w' →
       (p, content) ∈ files w
       ∨ p = Div dir (normalize_filename name +:+
                      (if decide (fmt = "gltf") then ".glb" else "." +:+ fmt))).
Proof.
  split.
  - intros s content Hs Hok. eexists. split.
    + eapply export_format_ok; [|done]. unfold exporter_call, BASE_DIR.
      rewrite Hok. reflexivity.
    + done.
  - intros fmt dir o stats' w' p content Hdir Hrun Hin.
    rewrite (export_format_files _ _ _ _ _ _ _ _ _ Hrun) in Hin.
    apply elem_of_app in Hin as [Hin|Hin]; [by left|right].
    apply list_elem_of_omap in Hin as (g & ->%list_elem_of_singleton & Hg).
    rewrite output_dirs_lookup in Hdir. unfold exporter_call in Hg.
    repeat case_bool_decide; repeat case_match; by simplify_eq.
Qed.

(** ** The whole run *)



Lemma valid_format_cases fmt :
  fmt ∈ valid_formats ↔ fmt = "svg" ∨ fmt = "stl" ∨ fmt = "gltf" ∨ fmt = "obj".
Proof.
  unfold valid_formats. rewrite !elem_of_union, !elem_of_singleton. tauto.
Qed.

(** The directories of valid formats are created, in the order requested. *)
Lemma mkdir_loop_run formats stats w :
  Forall (λ fmt, fmt ∈ valid_formats) formats →
  for_each formats (λ fmt, d ← output_dir fmt; mkdir d) stats w
  = (Returned tt, stats,
     World (stdout w) (dirs w ++ omap (λ fmt, OUTPUT_DIRS !! fmt) formats)
       (calls w) (files w)).
Proof.
  revert w. induction formats as [|fmt formats IH]; intros w Hvalid.
  - destruct w; cbn. by rewrite app_nil_r.
  - apply Forall_cons in Hvalid as [Hfmt Hvalid].
    cbn [for_each omap list_omap]. unfold bind at 1.
    apply valid_format_cases in Hfmt.
    destruct Hfmt as [-> | [-> | [-> | ->]]]; unfold output_dir; dirs; run;
      rewrite IH by done; unfold w_mkdir; cbn; by rewrite <- app_assoc.
Qed.

(** The summary is printed for every requested format. *)
Lemma summary_loop_run formats total stats w :
  covers stats formats →
  ∃ lines,
    for_each formats (summarize_format total) stats w
    = (Returned tt, stats,
       World (stdout w ++ lines) (dirs w) (calls w) (files w)).
Proof.
  revert w. induction formats as [|fmt formats IH]; intros w Hcov.
  - exists []. destruct w; cbn. by rewrite app_nil_r.
  - apply covers_cons in Hcov as [[s Hs] Hcov].
    cbn [for_each]. unfold bind at 1, summarize_format, get_stat. run.
    rewrite Hs. destruct (bool_decide (failed s ≠ [])); run.
    + edestruct IH as [lines ->]; [done|]. eexists ([_; _] ++ lines).
      unfold w_print; cbn. by rewrite <- !app_assoc.
    + edestruct IH as [lines ->]; [done|]. eexists ([_] ++ lines).
      unfold w_print; cbn. by rewrite <- !app_assoc.
Qed.

Lemma print_summary_run formats total stats w :
  covers stats formats →
  ∃ lines,
    print_summary formats total stats w
    = (Returned tt, stats,
       World (stdout w ++ [Text (repeat_str "-" 60); Text "Summary:"] ++ lines)
         (dirs w) (calls w) (files w)).
Proof.
  intros Hcov. unfold print_summary. run.
  edestruct summary_loop_run as [lines ->]; [done|]. exists lines.
  unfold w_print; cbn [stdout dirs calls files]. by rewrite <- !app_assoc.
Qed.

(** [stats] starts with an entry for every requested format. *)
Lemma init_stats_dom formats (acc : gmap string stat) :
  dom (foldl (λ stats fmt, <[fmt := Stat 0 []]> stats) acc formats)
  = dom acc ∪ list_to_set formats.
Proof.
  revert acc. induction formats as [|fmt formats IH]; intros acc.
  - cbn [foldl list_to_set]. by rewrite union_empty_r_L.
  - cbn [foldl list_to_set]. rewrite IH, dom_insert_L.
    by rewrite (union_comm_L {[fmt]} (dom acc)), union_assoc_L.
Qed.

Lemma init_stats_covers formats : covers (init_stats formats) formats.
Proof.
  apply Forall_forall. intros fmt Hfmt. apply elem_of_dom.
  unfold init_stats. rewrite init_stats_dom.
  apply elem_of_union_r. by apply elem_of_list_to_set.
Qed.






End AllAssetsFacts.

(* ===================================================================== *)
(** * The SVG-only script                                                 *)
(* ===================================================================== *)

Section CrystalAssetsFacts.
Import Py Wording CrystalAssets.

Context {Desc Geometry : Type}.
Context (ext : externals Desc Geometry).

Ltac run :=
  repeat progress
    (unfold mbind, mret, M_bind, M_ret, call, sys_exit, bind, ret, raise,
       try_except, print, set_locals, get_locals, mkdir, write_file,
       call_function; cbn beta iota).

(** The placeholder loop writes one file per name, all with the same
    content. *)
Lemma placeholder_loop_run total names i w :
  ∃ lines,
    for_each (enumerate i names) (λ '(i, name), write_placeholder total i name)
      tt w
    = (Returned tt, tt,
       World (stdout w ++ lines) (dirs w) (calls w)
         (files w ++
          ((λ name, (Div OUTPUT_DIR (name +:+ ".svg"),
                     generate_placeholder_svg EmptyString)) <$> names))).
Proof.
  revert i w. induction names as [|name names IH]; intros i w.
  - exists []. destruct w; cbn. by rewrite !app_nil_r.
  - cbn [enumerate for_each fmap list_fmap]. unfold bind at 1, write_placeholder.
    run. edestruct IH as [lines ->]. eexists ([_] ++ lines).
    unfold w_print, w_write; cbn [stdout dirs calls files].
    by rewrite <- !app_assoc.
Qed.

(** C9.  The placeholder SVG does not depend on the name: any two names get
    the same text, which holds exactly four polygons, and the placeholder
    path writes that one text to [<name>.svg] for each of its names. *)
Theorem placeholder_svg_ignores_name :
  (∀ a b, generate_placeholder_svg a = generate_placeholder_svg b)
  ∧ occurrences "<polygon" (generate_placeholder_svg EmptyString) = 4
  ∧ ∀ w, ∃ w',
      generate_placeholder_assets tt w = (Returned tt, tt, w')
      ∧ files w'
        = files w ++
          ((λ name, (Div OUTPUT_DIR (name +:+ ".svg"),
                     generate_placeholder_svg EmptyString)) <$> minerals).
Proof.
  split; [done|]. split; [by vm_compute|].
  intros w. unfold generate_placeholder_assets. run.
  edestruct placeholder_loop_run as [lines ->]. by eexists.
Qed.

(** Without the packages, [generate_assets] prints its diagnostic and leaves
    through [sys.exit(1)]. *)
Lemma crystal_import_fails l w msg :
  import_error ext = Some msg →
  generate_assets ext l w
  = (Raised (SystemExit 1), l,
     World
       (stdout w ++
        [Text ("Error: Missing required package: " +:+ msg);
         Text "
Install required packages:";
         Text "  pip install cdl-parser crystal-geometry crystal-renderer mineral-database"])
       (dirs w) (calls w) (files w)).
Proof.
  intros Himp. unfold generate_assets, import_packages. rewrite Himp. run.
  unfold w_print; cbn [stdout dirs calls files]. by rewrite <- !app_assoc.
Qed.

(** The body of the preset loop always returns. *)
Lemma crystal_process_preset_run total i name l w :
  ∃ l' w', process_preset ext total i name l w = (Returned tt, l', w').
Proof.
  unfold process_preset.
  destruct (no_cdl (get_preset ext name)); [by eexists _, _|].
  destruct (get_preset ext name ≫= cdl) as [text|]; [|by eexists _, _].
  run. destruct (parse_cdl ext text) as [desc|]; run; [|by eexists _, _].
  destruct (cdl_to_geometry ext desc) as [geom|]; run; [|by eexists _, _].
  unfold call_exporter.
  destruct (generate_svg ext geom _); run; by eexists _, _.
Qed.

Lemma crystal_preset_loop_run total presets i l w :
  ∃ l' w',
    for_each (enumerate i presets) (λ '(i, name), process_preset ext total i name)
      l w
    = (Returned tt, l', w').
Proof.
  revert i l w. induction presets as [|name presets IH]; intros i l w.
  - by exists l, w.
  - destruct (crystal_process_preset_run total i name l w) as (l1 & w1 & Hrun1).
    destruct (IH (S i) l1 w1) as (l2 & w2 & Hrun2).
    exists l2, w2. cbn [enumerate for_each]. unfold bind. by rewrite Hrun1, Hrun2.
Qed.

Lemma failed_report_run (failed : list (string * string)) (l : locals) w :
  ∃ w',
    for_each failed (λ '(name, error),
      print (Text ("  - " +:+ name +:+ ": " +:+ error))) l w
    = (Returned tt, l, w').
Proof.
  revert w. induction failed as [|[name error] failed IH]; intros w.
  - by exists w.
  - cbn [for_each]. unfold bind at 1. run. apply IH.
Qed.

(** With the packages in place, [generate_assets] returns. *)
Lemma crystal_generate_assets_run l w :
  import_error ext = None →
  ∃ r l' w', generate_assets ext l w = (Returned r, l', w').
Proof.
  intros Himp. unfold generate_assets, import_packages. rewrite Himp. run.
  edestruct crystal_preset_loop_run as (l1 & w1 & Hrun). rewrite Hrun.
  case_bool_decide; run; [|by eexists _, _, _].
  edestruct failed_report_run as [w2 Hreport]. rewrite Hreport.
  by eexists _, _, _.
Qed.

(** No [ImportError] leaves [generate_assets]: the fallback of the
    [__main__] block is never taken, whatever the collaborators do. *)
Lemma fallback_never_taken w :
  main ext false tt w
  = (call_function (generate_assets ext) (Locals 0 []) ;; mret tt) tt w.
Proof.
  unfold main. run.
  destruct (import_error ext) as [msg|] eqn:Himp.
  - by rewrite (crystal_import_fails _ _ _ Himp).
  - destruct (crystal_generate_assets_run (Locals 0 []) w Himp)
      as (r & l' & w' & Hrun).
    by rewrite Hrun.
Qed.

(** C6.  Run without [--placeholder] while the packages cannot be imported,
    the script prints the missing-package diagnostic and exits with
    status 1: the [SystemExit] raised inside [generate_assets] is not an
    [ImportError], so the fallback of the [__main__] block is not taken and
    no placeholder is written. *)
Theorem missing_packages_exit_without_placeholders msg :
  import_error ext = Some msg →
  run_main ext false
  = (1%Z,
     World
       [Text ("Error: Missing required package: " +:+ msg);
        Text "
Install required packages:";
        Text "  pip install cdl-parser crystal-geometry crystal-renderer mineral-database"]
       [] [] []).
Proof.
  intros Himp. unfold run_main, main. run.
  by rewrite (crystal_import_fails _ _ _ Himp).
Qed.

End CrystalAssetsFacts.

(* ===================================================================== *)
(** * Presets without a description                                       *)
(* ===================================================================== *)

Section Skipped.
Import Py.

Context {Desc Geometry Arrays Desc' Geometry' : Type}.
Context (ext : AllAssets.externals Desc Geometry Arrays).
Context (ext' : CrystalAssets.externals Desc' Geometry').

Lemma all_assets_no_cdl (p : AllAssets.preset) :
  p = AllAssets.PresetNone
  ∨ AllAssets.preset_cdl p = None
  ∨ AllAssets.preset_cdl p = Some EmptyString →
  AllAssets.no_cdl p = true.
Proof.
  unfold AllAssets.no_cdl. intros [->|[->| ->]]; [done| |].
  - cbn. by rewrite orb_true_r.
  - cbn. by rewrite orb_true_r.
Qed.

Lemma crystal_assets_no_cdl (p : option CrystalAssets.preset) :
  p = None
  ∨ (∃ q, p = Some q
        ∧ (CrystalAssets.cdl q = None ∨ CrystalAssets.cdl q = Some EmptyString)) →
  CrystalAssets.no_cdl p = true.
Proof.
  intros [->|(q & -> & [Hq|Hq])]; [done| |]; cbn; by rewrite Hq.
Qed.

(** C4.  In both scripts, a preset that the database does not know, or whose
    description is missing or empty, only gets its SKIP line: the counters
    and failed lists are left as they are, no directory is created, no
    exporter is invoked, no file is written, and the loop goes on with the
    next preset. *)
Theorem presets_without_cdl_are_skipped formats total i name stats locals w :
  let line := Text (AllAssets.progress i total +:+ "SKIP: " +:+ name +:+ " (no CDL)") in
  let w' := w_print line w in
  (files w' = files w ∧ calls w' = calls w ∧ dirs w' = dirs w)
  ∧ (AllAssets.get_preset ext name = AllAssets.PresetNone
     ∨ AllAssets.preset_cdl (AllAssets.get_preset ext name) = None
     ∨ AllAssets.preset_cdl (AllAssets.get_preset ext name) = Some EmptyString →
     AllAssets.process_preset ext formats total i name stats w
     = (Returned tt, stats, w')
     ∧ ∀ rest,
         for_each ((i, name) :: rest)
           (λ '(i, name), AllAssets.process_preset ext formats total i name)
           stats w
         = for_each rest
             (λ '(i, name), AllAssets.process_preset ext formats total i name)
             stats w')
  ∧ (CrystalAssets.get_preset ext' name = None
     ∨ (∃ q, CrystalAssets.get_preset ext' name = Some q
           ∧ (CrystalAssets.cdl q = None
              ∨ CrystalAssets.cdl q = Some EmptyString)) →
     CrystalAssets.process_preset ext' total i name locals w
     = (Returned tt, locals, w')
     ∧ ∀ rest,
         for_each ((i, name) :: rest)
           (λ '(i, name), CrystalAssets.process_preset ext' total i name)
           locals w
         = for_each rest
             (λ '(i, name), CrystalAssets.process_preset ext' total i name)
             locals w').
Proof.
  cbn zeta. split; [done|]. split.
  - intros Hno%all_assets_no_cdl.
    assert (Hstep : AllAssets.process_preset ext formats total i name stats w
                    = (Returned tt, stats,
                       w_print (Text (AllAssets.progress i total +:+ "SKIP: "
                                      +:+ name +:+ " (no CDL)")) w)).
    { unfold AllAssets.process_preset. by rewrite Hno. }
    split; [done|]. intros rest. cbn [for_each]. unfold bind. by rewrite Hstep.
  - intros Hno%crystal_assets_no_cdl.
    assert (Hstep : CrystalAssets.process_preset ext' total i name locals w
                    = (Returned tt, locals,
                       w_print (Text (AllAssets.progress i total +:+ "SKIP: "
                                      +:+ name +:+ " (no CDL)")) w)).
    { unfold CrystalAssets.process_preset. by rewrite Hno. }
    split; [done|]. intros rest. cbn [for_each]. unfold bind. by rewrite Hstep.
Qed.

End Skipped.

(* ===================================================================== *)
(** * The statements on the sample collaborators                          *)
(* ===================================================================== *)

Section Witnesses.
Import Py.

(** "Quartz" with formats svg, gltf, obj: the glTF exporter raises, the two
    others are still run. *)
Lemma export_failure_isolated_witness :
  let formats := ["svg"; "gltf"; "obj"] in
  AllAssets.build_geometry Sample.all_ext "cubic[m3m]:{111}" = Ok tt
  ∧ ∃ stats' w',
      AllAssets.process_preset Sample.all_ext formats 4 1 "Quartz"
        (AllAssets.init_stats formats) empty_world
      = (Returned tt, stats', w')
      ∧ stats' !! "gltf" = Some (AllAssets.Stat 0 ["Quartz"])
      ∧ stats' !! "obj" = Some (AllAssets.Stat 1 [])
      ∧ length (files w') = 2.
Proof.
  cbn zeta. split; [reflexivity|].
  edestruct (export_failure_isolated Sample.all_ext ["svg"; "gltf"; "obj"] 4 1
               "Quartz" "cubic[m3m]:{111}" tt "gltf" "export_gltf"
               (Div (Div (Div AllAssets.BASE_DIR "models") "gltf") "quartz.glb")
               "    ✓ glTF: quartz.glb" "no mesh"
               (AllAssets.init_stats ["svg"; "gltf"; "obj"]) empty_world)
    as (stats' & w' & Hrun & Hcalls & Hfiles & Hinv & Hfail & Hok).
  - reflexivity.
  - reflexivity.
  - reflexivity.
  - apply (bool_decide_unpack _). vm_compute. exact I.
  - vm_compute. reflexivity.
  - unfold AllAssets.covers. apply (bool_decide_unpack _). vm_compute. exact I.
  - exists stats', w'. split; [exact Hrun|]. split; [|split].
    + exact (Hfail (AllAssets.Stat 0 []) eq_refl).
    + edestruct (Hok "obj" (AllAssets.Stat 0 [])) as [Hobj _].
      * apply (bool_decide_unpack _). vm_compute. exact I.
      * reflexivity.
      * vm_compute. reflexivity.
      * exact Hobj.
    + rewrite Hfiles. reflexivity.
Defined.

(** "Bad Geo" with formats svg and stl: the parser raises, both formats
    record the preset as failed and nothing is written. *)
Lemma geometry_failure_fails_every_format_witness :
  let formats := ["svg"; "stl"] in
  AllAssets.build_geometry Sample.all_ext "Bad Geo" = Raises "parse error"
  ∧ ∃ stats' w',
      AllAssets.process_preset Sample.all_ext formats 4 4 "Bad Geo"
        (AllAssets.init_stats formats) empty_world
      = (Returned tt, stats', w')
      ∧ stats' !! "svg" = Some (AllAssets.Stat 0 ["Bad Geo"])
      ∧ stats' !! "stl" = Some (AllAssets.Stat 0 ["Bad Geo"])
      ∧ files w' = [] ∧ calls w' = [].
Proof.
  cbn zeta. split; [reflexivity|].
  edestruct (geometry_failure_fails_every_format Sample.all_ext ["svg"; "stl"]
               4 4 "Bad Geo" "Bad Geo" "parse error"
               (AllAssets.init_stats ["svg"; "stl"]) empty_world)
    as (stats' & w' & Hrun & _ & _ & Hcalls & Hfiles & Hfail & _).
  - reflexivity.
  - reflexivity.
  - reflexivity.
  - unfold AllAssets.covers. apply (bool_decide_unpack _). vm_compute. exact I.
  - exists stats', w'. split; [exact Hrun|].
    destruct (Hfail "svg") as (s1 & Hs1 & _ & Hsvg).
    { apply (bool_decide_unpack _). vm_compute. exact I. }
    destruct (Hfail "stl") as (s2 & Hs2 & _ & Hstl).
    { apply (bool_decide_unpack _). vm_compute. exact I. }
    vm_compute in Hs1, Hs2. injection Hs1 as <-. injection Hs2 as <-.
    split; [exact Hsvg|]. split; [exact Hstl|]. split; [exact Hfiles|exact Hcalls].
Defined.

(** "Ghost" is unknown to the database: both scripts skip it. *)
Lemma presets_without_cdl_are_skipped_witness :
  AllAssets.process_preset Sample.all_ext ["svg"; "stl"] 4 3 "Ghost"
    (AllAssets.init_stats ["svg"; "stl"]) empty_world
  = (Returned tt, AllAssets.init_stats ["svg"; "stl"],
     World [Text "[3/4] SKIP: Ghost (no CDL)"] [] [] [])
  ∧ CrystalAssets.process_preset (Sample.crystal_ext None) 4 3 "Ghost"
      (CrystalAssets.Locals 0 []) empty_world
    = (Returned tt, CrystalAssets.Locals 0 [],
       World [Text "[3/4] SKIP: Ghost (no CDL)"] [] [] []).
Proof.
  destruct (presets_without_cdl_are_skipped Sample.all_ext
              (Sample.crystal_ext None) ["svg"; "stl"] 4 3 "Ghost"
              (AllAssets.init_stats ["svg"; "stl"]) (CrystalAssets.Locals 0 [])
              empty_world)
    as (_ & Hall & Hcrystal).
  split.
  - destruct Hall as [Hstep _]; [left; reflexivity|exact Hstep].
  - destruct Hcrystal as [Hstep _]; [left; reflexivity|exact Hstep].
Defined.


(** "Lapis Lazuli (Var.)" exported as gltf lands in [lapis-lazuli-var..glb]. *)
Lemma gltf_is_written_as_glb_witness :
  ∃ w',
    AllAssets.export_format Sample.all_ext "Lapis Lazuli (Var.)"
      "lapis-lazuli-var." tt "gltf" (AllAssets.init_stats ["gltf"]) empty_world
    = (Returned tt, <["gltf" := AllAssets.Stat 1 []]> (AllAssets.init_stats ["gltf"]), w')
    ∧ files w'
      = [(Div (Div (Div (Div RepoRoot "public") "models") "gltf")
            "lapis-lazuli-var..glb", "glTF")].
Proof.
  destruct (gltf_is_written_as_glb Sample.all_ext "Lapis Lazuli (Var.)" tt
              (AllAssets.init_stats ["gltf"]) empty_world) as [Hglb _].
  exact (Hglb (AllAssets.Stat 0 []) "glTF" eq_refl eq_refl).
Defined.

(** With [mineral_database] missing, the SVG-only script exits with
    status 1 and writes nothing. *)
Lemma missing_packages_exit_without_placeholders_witness :
  (CrystalAssets.run_main
     (Sample.crystal_ext (Some "No module named 'mineral_database'")) false).1
  = 1%Z
  ∧ files (CrystalAssets.run_main
             (Sample.crystal_ext (Some "No module named 'mineral_database'"))
             false).2
    = [].
Proof.
  rewrite (missing_packages_exit_without_placeholders
             (Sample.crystal_ext (Some "No module named 'mineral_database'"))
             "No module named 'mineral_database'" eq_refl).
  split; reflexivity.
Defined.

End Witnesses.

(* ===================================================================== *)
(** * More on filename stems                                              *)
(* ===================================================================== *)

Section StemFacts.
Import Py Wording Effects.










Lemma has_char_cons c d (s : string) :
  has_char c (String d s) = bool_decide (c = d) || has_char c s.
Proof.
  unfold has_char. cbn [contains String.prefix].
  destruct (ascii_dec c d) as [->|Hne].
  - by rewrite prefix_empty, bool_decide_true.
  - by rewrite bool_decide_false.
Qed.

Lemma has_char_empty c : has_char c EmptyString = false.
Proof. reflexivity. Qed.

Lemma has_char_app c (s t : string) :
  has_char c (s +:+ t) = has_char c s || has_char c t.
Proof.
  induction s as [|d s IH]; [done|].
  by rewrite app_cons, !has_char_cons, IH, orb_assoc.
Qed.










End StemFacts.

(* ===================================================================== *)
(** * The two scripts' stems, and preset selection                        *)
(* ===================================================================== *)

Section StemsCompared.
Import Py Wording Effects.











End StemsCompared.

(* ===================================================================== *)
(** * Formats, directories and paths                                      *)
(* ===================================================================== *)

Section FormatFacts.
Import Py AllAssets Effects.

Context {Desc Geometry Arrays : Type}.
Context (ext : externals Desc Geometry Arrays).

Ltac run :=
  repeat progress
    (unfold mbind, mret, M_bind, M_ret, call, sys_exit, bind, ret, raise,
       try_except, print, set_locals, get_locals, mkdir; cbn beta iota).

(** X7.  The three places that list the formats agree: a format passes the
    validation of the [__main__] block exactly when it has an output
    directory, and exactly when the format loop has a branch for it; and
    no two formats share a directory. *)
Theorem format_tables_agree (fmt name filename : string) (arrays : Arrays) :
  (fmt ∈ valid_formats ↔ is_Some (OUTPUT_DIRS !! fmt))
  ∧ (fmt ∈ valid_formats
     ↔ is_Some (exporter_call ext name filename arrays fmt))
  ∧ ∀ g d, OUTPUT_DIRS !! fmt = Some d → OUTPUT_DIRS !! g = Some d → fmt = g.
Proof.
  rewrite valid_format_cases, output_dirs_lookup. unfold exporter_call.
  split; [|split].
  - repeat case_bool_decide; split; eauto; try (intros [? ?]; done);
      intros [?|[?|[?|?]]]; done.
  - repeat case_bool_decide; split; eauto; try (intros [? ?]; done);
      intros [?|[?|[?|?]]]; done.
  - intros g d Hf Hg. rewrite output_dirs_lookup in Hg.
    repeat case_bool_decide; by simplify_eq.
Qed.

Lemma output_dir_unknown fmt :
  fmt ∉ valid_formats → OUTPUT_DIRS !! fmt = None.
Proof.
  rewrite valid_format_cases, output_dirs_lookup. intros Hno.
  repeat case_bool_decide; try done; destruct Hno; auto.
Qed.

(** X8.  Called with a format that has no output directory,
    [generate_assets] raises [KeyError] on it while creating the
    directories: those of the formats before it exist, nothing is printed,
    no preset is looked at and [stats] is never set up. *)
Theorem unknown_format_raises_key_error valid bad rest preset_filter
    (stats0 : gmap string stat) w :
  import_error ext = None →
  Forall (λ fmt, fmt ∈ valid_formats) valid →
  bad ∉ valid_formats →
  generate_assets ext (valid ++ bad :: rest) preset_filter stats0 w
  = (Raised (KeyError bad), stats0,
     World (stdout w) (dirs w ++ omap (λ fmt, OUTPUT_DIRS !! fmt) valid)
       (calls w) (files w)).
Proof.
  intros Himp Hvalid Hbad. unfold generate_assets, import_packages.
  rewrite Himp. run.
  assert (Hloop : ∀ w,
    for_each (valid ++ bad :: rest) (λ fmt, d ← output_dir fmt; mkdir d) stats0 w
    = (Raised (KeyError bad), stats0,
       World (stdout w) (dirs w ++ omap (λ fmt, OUTPUT_DIRS !! fmt) valid)
         (calls w) (files w))).
  { clear w. induction Hvalid as [|fmt valid Hfmt Hvalid IH]; intros w.
    - cbn [app for_each omap list_omap]. unfold bind, output_dir. run.
      rewrite (output_dir_unknown _ Hbad). run.
      destruct w; cbn. by rewrite app_nil_r.
    - cbn [app for_each omap list_omap]. unfold bind at 1.
      apply valid_format_cases in Hfmt.
      destruct output_dirs_valid as (Hsvg & Hstl & Hgltf & Hobj).
      destruct Hfmt as [-> | [-> | [-> | ->]]]; unfold output_dir;
        rewrite ?Hsvg, ?Hstl, ?Hgltf, ?Hobj; run;
        rewrite IH; unfold w_mkdir; cbn; by rewrite <- app_assoc. }
  unfold mbind, M_bind in Hloop. by rewrite Hloop.
Qed.



End FormatFacts.

(* ===================================================================== *)
(** * The effects of a whole run of the multi-format script               *)
(* ===================================================================== *)

Section RunFacts.
Import Py AllAssets Effects.

Context {Desc Geometry Arrays : Type}.
Context (ext : externals Desc Geometry Arrays).

Implicit Types (stats : gmap string stat) (w : world) (fmt name : string).

Ltac run :=
  repeat progress
    (unfold mbind, mret, M_bind, M_ret, call, sys_exit, bind, ret, raise,
       try_except, print, set_locals, get_locals, mkdir; cbn beta iota).

(** One preset: what it prints aside, its effects are those of
    [preset_calls], [preset_files] and [preset_stat]. *)
Lemma process_preset_effects formats total i name stats w :
  covers stats formats →
  ∃ stats' lines,
    process_preset ext formats total i name stats w
    = (Returned tt, stats',
       World (stdout w ++ lines) (dirs w)
         (calls w ++ preset_calls ext formats name)
         (files w ++ preset_files ext formats name))
    ∧ dom stats' = dom stats
    ∧ ∀ g s, stats !! g = Some s →
        stats' !! g = Some (preset_stat ext formats g s name).
Proof.
  intros Hcov.
  unfold process_preset, preset_calls, preset_files, preset_stat, preset_build.
  destruct (no_cdl (get_preset ext name)).
  { exists stats; eexists [_]. split; [|done]. unfold print, w_print.
    by rewrite !app_nil_r. }
  destruct (preset_cdl (get_preset ext name)) as [cdl|];
    cbn [fmap option_fmap option_map].
  2:{ exists stats, []. split; [|done]. destruct w; cbn. by rewrite !app_nil_r. }
  run. destruct (build_geometry ext cdl) as [arrays|msg] eqn:Hbuild.
  - rewrite (build_and_export_built _ _ _ _ _ _ _ _ Hbuild Hcov).
    destruct (export_formats_run ext name (normalize_filename name) arrays
                formats stats (w_print (Text (progress i total +:+ name)) w) Hcov)
      as (stats' & lines & Hrun & Hdom & Hstat).
    exists stats'; eexists ([_] ++ lines). split; [|done].
    rewrite Hrun. unfold w_print; cbn [stdout dirs calls files].
    by rewrite <- app_assoc.
  - rewrite (build_and_export_failed _ _ _ _ _ _ _ _ Hbuild).
    destruct (fail_all_run name formats stats
                (w_print (Text ("    ✗ Geometry error: " +:+ msg))
                   (w_print (Text (progress i total +:+ name)) w)) Hcov)
      as (stats' & Hrun & Hdom & Hstat).
    exists stats'; eexists [_; _]. split; [|done].
    rewrite Hrun. unfold w_print; cbn [stdout dirs calls files].
    by rewrite <- !app_assoc, !app_nil_r.
Qed.

(** The preset loop: the effects of the presets, one after the other. *)
Lemma preset_loop_effects formats total presets i stats w :
  covers stats formats →
  ∃ stats' lines,
    for_each (enumerate i presets)
      (λ '(i, name), process_preset ext formats total i name) stats w
    = (Returned tt, stats',
       World (stdout w ++ lines) (dirs w)
         (calls w ++ (presets ≫= preset_calls ext formats))
         (files w ++ (presets ≫= preset_files ext formats)))
    ∧ dom stats' = dom stats
    ∧ ∀ g s, stats !! g = Some s →
        stats' !! g = Some (foldl (preset_stat ext formats g) s presets).
Proof.
  revert i stats w. induction presets as [|name presets IH]; intros i stats w Hcov.
  - exists stats, []. split; [|done]. destruct w; cbn. by rewrite !app_nil_r.
  - destruct (process_preset_effects formats total i name stats w Hcov)
      as (stats1 & lines1 & Hrun1 & Hdom1 & Hstat1).
    destruct (IH (S i) stats1
                (World (stdout w ++ lines1) (dirs w)
                   (calls w ++ preset_calls ext formats name)
                   (files w ++ preset_files ext formats name)))
      as (stats2 & lines2 & Hrun2 & Hdom2 & Hstat2).
    { by eapply covers_dom. }
    exists stats2, (lines1 ++ lines2). split; [|split; [congruence|]].
    + cbn [enumerate for_each]. unfold bind. rewrite Hrun1, Hrun2.
      cbn [stdout dirs calls files]. by rewrite !bind_cons, !app_assoc.
    + intros g s Hg. cbn [foldl]. eauto.
Qed.

Lemma init_stats_fresh formats (acc : gmap string stat) g s :
  (∀ k v, acc !! k = Some v → v = Stat 0 []) →
  foldl (λ stats fmt, <[fmt := Stat 0 []]> stats) acc formats !! g = Some s →
  s = Stat 0 [].
Proof.
  revert acc. induction formats as [|fmt formats IH]; intros acc Hacc; cbn [foldl].
  - apply Hacc.
  - apply IH. intros k v. rewrite lookup_insert. case_decide; [|apply Hacc].
    by intros [= <-].
Qed.

Lemma init_stats_lookup formats g :
  g ∈ formats → init_stats formats !! g = Some (Stat 0 []).
Proof.
  intros Hg.
  destruct (proj1 (Forall_forall _ _) (init_stats_covers formats) g Hg) as [s Hs].
  rewrite Hs. f_equal. eapply init_stats_fresh; [|exact Hs].
  intros k v. by rewrite lookup_empty.
Qed.

(** The whole of [generate_assets], with the packages in place and valid
    formats. *)
Lemma generate_assets_effects formats preset_filter stats0 w :
  import_error ext = None →
  Forall (λ fmt, fmt ∈ valid_formats) formats →
  let presets := select_presets (list_presets ext) preset_filter in
  ∃ stats' lines,
    generate_assets ext formats preset_filter stats0 w
    = (Returned stats', stats',
       World (stdout w ++ lines)
         (dirs w ++ omap (λ fmt, OUTPUT_DIRS !! fmt) formats)
         (calls w ++ (presets ≫= preset_calls ext formats))
         (files w ++ (presets ≫= preset_files ext formats)))
    ∧ dom stats' = list_to_set formats
    ∧ ∀ g, g ∈ formats →
        stats' !! g
        = Some (foldl (preset_stat ext formats g) (Stat 0 []) presets).
Proof.
  intros Himp Hvalid presets. unfold generate_assets, import_packages.
  rewrite Himp. run. rewrite (mkdir_loop_run _ _ _ Hvalid).
  fold presets.
  edestruct (preset_loop_effects formats (length presets) presets 1)
    as (stats1 & lines1 & Hrun & Hdom & Hstat); [apply init_stats_covers|].
  rewrite Hrun.
  edestruct (print_summary_run formats) as [summary Hsum];
    [eapply covers_dom; [exact Hdom|apply init_stats_covers]|].
  rewrite Hsum. exists stats1. eexists. split; [|split].
  - unfold w_print. cbn [stdout dirs calls files].
    rewrite <- !app_assoc. reflexivity.
  - rewrite Hdom. unfold init_stats. rewrite init_stats_dom, dom_empty_L.
    by rewrite union_empty_l_L.
  - intros g Hg. apply Hstat. by apply init_stats_lookup.
Qed.

Lemma exporter_result_valid name filename (arrays : Arrays) g :
  g ∈ valid_formats →
  ∃ r, exporter_result ext name filename arrays g = Some r.
Proof.
  rewrite valid_format_cases. unfold exporter_result, exporter_call.
  intros [-> | [-> | [-> | ->]]]; by eexists.
Qed.

(** Each preset that reaches the outer [try] adds one count per request of
    a valid format, to [success] or to [failed]. *)
Lemma preset_stat_account formats g s name :
  g ∈ valid_formats →
  let s' := preset_stat ext formats g s name in
  success s' + length (failed s')
  = success s + length (failed s)
    + match preset_build ext name with Some _ => requests g formats | None => 0 end
  ∧ ∀ n, n ∈ failed s' →
      n ∈ failed s ∨ (n = name ∧ is_Some (preset_build ext name)).
Proof.
  intros Hg. unfold preset_stat.
  destruct (preset_build ext name) as [[arrays|msg]|]; cbn zeta.
  - destruct (exporter_result_valid name (normalize_filename name) arrays g Hg)
      as [[content|msg] ->]; cbn [after_rounds success failed].
    + split; [lia|]. auto.
    + rewrite length_app, length_replicate. split; [lia|].
      intros n [Hn|[-> _]%elem_of_replicate]%elem_of_app; eauto.
  - cbn [success failed]. rewrite length_app, length_replicate. split; [lia|].
    intros n [Hn|[-> _]%elem_of_replicate]%elem_of_app; eauto.
  - split; [lia|]. auto.
Qed.

Lemma described_cons name presets :
  described ext (name :: presets)
  = match preset_build ext name with Some _ => [name] | None => [] end
    ++ described ext presets.
Proof.
  unfold described. rewrite filter_cons.
  destruct (preset_build ext name) as [r|]; case_decide as Hsome; try done.
  destruct Hsome. by exists r.
Qed.

Lemma fold_account formats g presets s :
  g ∈ valid_formats →
  let s' := foldl (preset_stat ext formats g) s presets in
  success s' + length (failed s')
  = success s + length (failed s)
    + requests g formats * length (described ext presets)
  ∧ ∀ n, n ∈ failed s' → n ∈ failed s ∨ n ∈ described ext presets.
Proof.
  intros Hg. revert s. induction presets as [|name presets IH]; intros s.
  - cbn. split; [lia|]. auto.
  - cbn [foldl]. cbn zeta.
    destruct (IH (preset_stat ext formats g s name)) as [IHn IHin].
    destruct (preset_stat_account formats g s name Hg) as [Hn Hin].
    rewrite described_cons, length_app. split.
    + rewrite IHn, Hn. destruct (preset_build ext name); cbn [length]; lia.
    + intros n Hfailed. destruct (IHin n Hfailed) as [Hhere|Hlater].
      * destruct (Hin n Hhere) as [?|[-> Hsome]]; [by left|right].
        apply elem_of_app. left. destruct (preset_build ext name); [|by destruct Hsome].
        apply list_elem_of_singleton. done.
      * right. apply elem_of_app. by right.
Qed.




(** X10.  With the packages in place and valid formats, a run creates the
    directory of every requested format, then invokes the exporters preset
    by preset in the order of the database list and, within a preset, in the
    order the formats were requested; the files written are those of the
    exporters that returned, in that same order. *)
Theorem generate_assets_calls_and_files formats preset_filter
    (stats0 : gmap string stat) w :
  import_error ext = None →
  Forall (λ fmt, fmt ∈ valid_formats) formats →
  let presets := select_presets (list_presets ext) preset_filter in
  ∃ stats' w',
    generate_assets ext formats preset_filter stats0 w
    = (Returned stats', stats', w')
    ∧ dirs w' = dirs w ++ omap (λ fmt, OUTPUT_DIRS !! fmt) formats
    ∧ calls w' = calls w ++ (presets ≫= preset_calls ext formats)
    ∧ files w' = files w ++ (presets ≫= preset_files ext formats).
Proof.
  intros Himp Hvalid presets.
  destruct (generate_assets_effects formats preset_filter stats0 w Himp Hvalid)
    as (stats' & lines & Hrun & _).
  eexists _, _. split; [exact Hrun|]. done.
Qed.

(** X11.  In the statistics a run returns, the keys are the requested
    formats, and for each of them the successes and the failures add up to
    one per request of the format and per selected preset that has a
    description; the failed list names such presets only. *)
Theorem every_described_preset_is_counted formats preset_filter
    (stats0 : gmap string stat) w g :
  import_error ext = None →
  Forall (λ fmt, fmt ∈ valid_formats) formats →
  g ∈ formats →
  let presets := select_presets (list_presets ext) preset_filter in
  ∃ stats' w' s,
    generate_assets ext formats preset_filter stats0 w
    = (Returned stats', stats', w')
    ∧ dom stats' = list_to_set formats
    ∧ stats' !! g = Some s
    ∧ success s + length (failed s)
      = requests g formats * length (described ext presets)
    ∧ ∀ n, n ∈ failed s → n ∈ described ext presets.
Proof.
  intros Himp Hvalid Hg presets. subst presets.
  destruct (generate_assets_effects formats preset_filter stats0 w Himp Hvalid)
    as (stats' & lines & Hrun & Hdom & Hstat).
  assert (Hgv : g ∈ valid_formats).
  { rewrite Forall_forall in Hvalid. by apply Hvalid. }
  destruct (fold_account formats g
              (select_presets (list_presets ext) preset_filter) (Stat 0 []) Hgv)
    as [Hn Hin].
  eexists _, _, _. split; [exact Hrun|]. split; [exact Hdom|].
  split; [by apply Hstat|]. split.
  - rewrite Hn. cbn. lia.
  - intros n Hfailed. destruct (Hin n Hfailed) as [Hnil|?]; [|done].
    by apply elem_of_nil in Hnil.
Qed.


End RunFacts.

(* ===================================================================== *)
(** * The effects of a whole run of the SVG-only script                   *)
(* ===================================================================== *)

Section CrystalRunFacts.
Import Py CrystalAssets Effects.

Context {Desc Geometry : Type}.
Context (ext : externals Desc Geometry).

Ltac run :=
  repeat progress
    (unfold mbind, mret, M_bind, M_ret, call, sys_exit, bind, ret, raise,
       try_except, print, set_locals, get_locals, mkdir, write_file,
       call_function; cbn beta iota).

Lemma omap_cons_list {A B} (f : A → option B) x (l : list A) :
  omap f (x :: l) = option_list (f x) ++ omap f l.
Proof. cbn. by destruct (f x). Qed.

(** One preset: it is skipped, or counted as a success with its file
    written, or recorded as failed with the message of the step that
    raised. *)
Lemma crystal_process_preset_effects total i name l w :
  ∃ lines new_calls,
    process_preset ext total i name l w
    = (Returned tt,
       Locals (success l + length (option_list (rendered_file ext name)))
         (failed l ++ option_list (render_failure ext name)),
       World (stdout w ++ lines) (dirs w) (calls w ++ new_calls)
         (files w ++ option_list (rendered_file ext name))).
Proof.
  unfold process_preset, rendered_file, render_failure, render.
  assert (Hsame : ∀ w, ((Returned tt, l, w) : outcome unit * locals * world)
            = (Returned tt, Locals (success l + 0) (failed l ++ []), w)).
  { intros w0. destruct l. cbn. by rewrite Nat.add_0_r, app_nil_r. }
  destruct (no_cdl (get_preset ext name)).
  { eexists [_], []. unfold print. rewrite Hsame. unfold w_print.
    cbn [option_list length]. by rewrite !app_nil_r. }
  destruct (get_preset ext name ≫= cdl) as [text|];
    cbn [fmap option_fmap option_map].
  2:{ exists [], []. run. rewrite Hsame. destruct w.
      cbn [option_list length stdout dirs calls files]. by rewrite !app_nil_r. }
  run. destruct (parse_cdl ext text) as [desc|msg]; run.
  2:{ eexists [_], []. unfold append_failed, w_print.
      cbn [option_list length exn_str success failed stdout dirs calls files].
      by rewrite Nat.add_0_r, !app_nil_r. }
  destruct (cdl_to_geometry ext desc) as [geom|msg]; run.
  2:{ eexists [_], []. unfold append_failed, w_print.
      cbn [option_list length exn_str success failed stdout dirs calls files].
      by rewrite Nat.add_0_r, !app_nil_r. }
  unfold call_exporter.
  destruct (generate_svg ext geom _) as [content|msg]; run.
  - eexists [_], [_]. unfold add_success, w_print, w_write, w_call.
    cbn [option_list length success failed stdout dirs calls files].
    by rewrite Nat.add_1_r, !app_nil_r.
  - eexists [_], [_]. unfold append_failed, w_print, w_call.
    cbn [option_list length exn_str success failed stdout dirs calls files].
    by rewrite Nat.add_0_r, !app_nil_r.
Qed.

Lemma crystal_preset_loop_effects total presets i l w :
  ∃ lines new_calls,
    for_each (enumerate i presets) (λ '(i, name), process_preset ext total i name)
      l w
    = (Returned tt,
       Locals (success l + length (omap (rendered_file ext) presets))
         (failed l ++ omap (render_failure ext) presets),
       World (stdout w ++ lines) (dirs w) (calls w ++ new_calls)
         (files w ++ omap (rendered_file ext) presets)).
Proof.
  revert i l w. induction presets as [|name presets IH]; intros i l w.
  - exists [], []. destruct l, w. cbn. by rewrite Nat.add_0_r, !app_nil_r.
  - destruct (crystal_process_preset_effects total i name l w)
      as (lines1 & calls1 & Hrun1).
    edestruct (IH (S i)) as (lines2 & calls2 & Hrun2).
    exists (lines1 ++ lines2), (calls1 ++ calls2).
    cbn [enumerate for_each]. unfold bind. rewrite Hrun1, Hrun2.
    rewrite !omap_cons_list, length_app.
    cbn [success failed stdout dirs calls files].
    by rewrite !app_assoc, Nat.add_assoc.
Qed.

Lemma render_counts (presets : list string) :
  length (omap (rendered_file ext) presets)
  + length (omap (render_failure ext) presets)
  = length (filter (λ name, is_Some (render ext name)) presets).
Proof.
  induction presets as [|name presets IH]; [done|].
  rewrite !omap_cons_list, !length_app, filter_cons.
  unfold rendered_file at 1, render_failure at 1.
  destruct (render ext name) as [[content|msg]|].
  - rewrite decide_True by by eexists. unfold option_list. cbn [option_rect length]. lia.
  - rewrite decide_True by by eexists. unfold option_list. cbn [option_rect length]. lia.
  - rewrite decide_False by by intros [? ?]. unfold option_list. cbn [option_rect length]. lia.
Qed.

Lemma failed_report_effects (failed : list (string * string)) (l : locals) w :
  ∃ lines,
    for_each failed (λ '(name, error),
      print (Text ("  - " +:+ name +:+ ": " +:+ error))) l w
    = (Returned tt, l, World (stdout w ++ lines) (dirs w) (calls w) (files w)).
Proof.
  revert w. induction failed as [|[name error] failed IH]; intros w.
  - exists []. destruct w; cbn. by rewrite app_nil_r.
  - cbn [for_each]. unfold bind at 1. run.
    edestruct IH as [lines ->]. eexists ([_] ++ lines).
    unfold w_print; cbn [stdout dirs calls files]. by rewrite <- app_assoc.
Qed.

(** X13.  With the packages in place, [generate_assets] of the SVG-only
    script creates its directory and returns the pair of the number of files
    it wrote and the list, in database order, of the presets whose parsing,
    geometry or rendering raised, each with the message; every preset with a
    description is in exactly one of the two. *)
Theorem crystal_generate_assets_effects l w :
  import_error ext = None →
  ∃ w',
    generate_assets ext l w
    = (Returned (length (omap (rendered_file ext) (list_presets ext)),
                 omap (render_failure ext) (list_presets ext)),
       Locals (length (omap (rendered_file ext) (list_presets ext)))
         (omap (render_failure ext) (list_presets ext)),
       w')
    ∧ dirs w' = dirs w ++ [OUTPUT_DIR]
    ∧ files w' = files w ++ omap (rendered_file ext) (list_presets ext)
    ∧ length (omap (rendered_file ext) (list_presets ext))
      + length (omap (render_failure ext) (list_presets ext))
      = length (filter (λ name, is_Some (render ext name)) (list_presets ext)).
Proof.
  intros Himp. unfold generate_assets, import_packages. rewrite Himp. run.
  edestruct (crystal_preset_loop_effects (length (list_presets ext))
               (list_presets ext) 1) as (lines & new_calls & Hrun).
  rewrite Hrun. cbn [success failed app Nat.add].
  case_bool_decide; run.
  - edestruct failed_report_effects as [report Hreport]. rewrite Hreport.
    eexists. split; [reflexivity|]. cbn [dirs files w_print w_mkdir].
    split; [done|]. split; [done|]. apply render_counts.
  - eexists. split; [reflexivity|]. cbn [dirs files w_print w_mkdir].
    split; [done|]. split; [done|]. apply render_counts.
Qed.

(** X14.  Run without [--placeholder], the SVG-only script exits with
    status 0 exactly when its packages import, whatever happens to the
    single presets; otherwise it exits with status 1. *)
Theorem crystal_exit_status :
  ((run_main ext false).1 = 0%Z ↔ import_error ext = None)
  ∧ ((run_main ext false).1 = 1%Z ↔ is_Some (import_error ext)).
Proof.
  unfold run_main. rewrite fallback_never_taken. run.
  destruct (import_error ext) as [msg|] eqn:Himp.
  - rewrite (crystal_import_fails _ _ _ _ Himp). cbn [fst exit_status].
    split; split; try done; try (intros _; by exists msg).
  - destruct (crystal_generate_assets_run ext (Locals 0 []) empty_world Himp)
      as (r & l' & w' & Hrun).
    rewrite Hrun. cbn [fst exit_status].
    split; split; try done; try (by intros [? ?]).
Qed.

(** X15.  Run with [--placeholder], the script does not look at the
    collaborators: it exits with status 0 having created its directory,
    invoked no exporter and written one file [<name>.svg] per name of its
    list; these paths are pairwise distinct, and every name of the list is
    left unchanged by the stem functions of both scripts. *)
Theorem placeholder_run :
  (run_main ext true).1 = 0%Z
  ∧ dirs (run_main ext true).2 = [OUTPUT_DIR]
  ∧ calls (run_main ext true).2 = []
  ∧ (files (run_main ext true).2).*1
    = (λ name, Div OUTPUT_DIR (name +:+ ".svg")) <$> minerals
  ∧ NoDup (files (run_main ext true).2).*1
  ∧ Forall (λ name, filename name = name
                    ∧ AllAssets.normalize_filename name = name) minerals.
Proof.
  assert (Hrun : run_main ext true
                 = (0%Z, (generate_placeholder_assets tt empty_world).2)).
  { assert (Hret : (generate_placeholder_assets tt empty_world).1
                   = (Returned tt, tt)) by (vm_compute; reflexivity).
    unfold run_main, main.
    destruct (generate_placeholder_assets tt empty_world) as [[o u] w'].
    cbn [fst] in Hret. by injection Hret as -> ->. }
  rewrite Hrun. cbn [fst snd].
  split; [done|]. split; [by vm_compute|]. split; [by vm_compute|].
  split; [by vm_compute|]. split.
  - apply (bool_decide_unpack _). vm_compute. exact I.
  - apply (bool_decide_unpack _). vm_compute. exact I.
Qed.

End CrystalRunFacts.

(* ===================================================================== *)
(** * Reading the --formats option                                        *)
(* ===================================================================== *)

Section ParseFacts.
Import Py AllAssets Effects.

Lemma split_from_piece sep cur (piece rest : string) :
  has_char sep piece = false →
  split_from sep cur (piece +:+ rest) = split_from sep (cur +:+ piece) rest.
Proof.
  revert cur. induction piece as [|c piece IH]; intros cur Hfree.
  - by rewrite app_nil_l, app_empty_r.
  - rewrite has_char_cons in Hfree. apply orb_false_iff in Hfree as [Hc Hfree].
    apply bool_decide_eq_false in Hc.
    rewrite app_cons. cbn [split_from]. rewrite decide_False by congruence.
    rewrite IH by done. by rewrite app_assoc_str.
Qed.

(** Splitting what was joined gives the pieces back. *)
Lemma split_join sep cur piece (pieces : list string) :
  Forall (λ p, has_char sep p = false) (piece :: pieces) →
  split_from sep cur (join (String sep EmptyString) (piece :: pieces))
  = (cur +:+ piece) :: pieces.
Proof.
  revert cur piece. induction pieces as [|next pieces IH]; intros cur piece Hfree.
  - apply Forall_cons in Hfree as [Hpiece _]. cbn [join].
    rewrite <- (app_empty_r piece) at 1. by rewrite split_from_piece.
  - apply Forall_cons in Hfree as [Hpiece Hfree].
    change (join (String sep EmptyString) (piece :: next :: pieces))
      with (piece +:+ String sep EmptyString
              +:+ join (String sep EmptyString) (next :: pieces)).
    rewrite split_from_piece by done. rewrite app_cons, app_nil_l.
    cbn [split_from]. rewrite decide_True by done.
    by rewrite IH.
Qed.

Lemma lstrip_spaces n (s : string) : lstrip (repeat_str " " n +:+ s) = lstrip s.
Proof. induction n as [|n IH]; [done|]. cbn [repeat_str]. by rewrite app_assoc_str. Qed.

Lemma rstrip_spaces_only n : rstrip (repeat_str " " n) = EmptyString.
Proof.
  induction n as [|n IH]; [done|].
  cbn [repeat_str]. rewrite app_cons, app_nil_l. cbn [rstrip]. by rewrite IH.
Qed.

Lemma rstrip_spaces n (s : string) : rstrip (s +:+ repeat_str " " n) = rstrip s.
Proof.
  induction s as [|c s IH].
  - by rewrite app_nil_l, rstrip_spaces_only.
  - rewrite app_cons. cbn [rstrip]. by rewrite IH.
Qed.

Lemma spaces_comma_free n : has_char "," (repeat_str " " n) = false.
Proof.
  induction n as [|n IH]; [done|].
  cbn [repeat_str]. by rewrite has_char_app, IH.
Qed.

Lemma lstrip_upper_valid fmt (t : string) :
  fmt ∈ valid_formats → lstrip (upper fmt +:+ t) = upper fmt +:+ t.
Proof.
  rewrite valid_format_cases. by intros [-> | [-> | [-> | ->]]].
Qed.

Lemma read_upper_valid fmt :
  fmt ∈ valid_formats →
  lower (rstrip (upper fmt)) = fmt ∧ has_char "," (upper fmt) = false.
Proof.
  rewrite valid_format_cases. by intros [-> | [-> | [-> | ->]]].
Qed.

(** A valid format typed in upper case between spaces reads as itself and
    holds no comma. *)
Lemma typed_format_reads fmt pads :
  fmt ∈ valid_formats →
  lower (strip (typed_format fmt pads)) = fmt
  ∧ has_char "," (typed_format fmt pads) = false.
Proof.
  intros Hfmt. destruct (read_upper_valid fmt Hfmt) as [Hread Hfree].
  unfold typed_format, strip. split.
  - by rewrite lstrip_spaces, (lstrip_upper_valid _ _ Hfmt), rstrip_spaces.
  - by rewrite !has_char_app, !spaces_comma_free, Hfree.
Qed.

Lemma split_nonempty sep cur (s : string) : split_from sep cur s ≠ [].
Proof.
  revert cur. induction s as [|c s IH]; intros cur; [done|].
  cbn [split_from]. by case_decide.
Qed.

(** X16.  The list read from [--formats] is never empty, and format names
    may be typed in upper case and padded with spaces: joined by commas,
    they read back as the lower-case names. *)
Theorem requested_formats_roundtrip (fmts : list string) (pads : list (nat * nat))
    (preset : option string) :
  (∀ a, requested_formats a ≠ [])
  ∧ (fmts ≠ [] →
     Forall (λ fmt, fmt ∈ valid_formats) fmts →
     length pads = length fmts →
     requested_formats (Args (join "," (zip_with typed_format fmts pads)) preset)
     = fmts).
Proof.
  split.
  { intros a. unfold requested_formats, split.
    intros Hnil%fmap_nil_inv. by apply split_nonempty in Hnil. }
  intros Hne Hvalid Hlen. unfold requested_formats, split. cbn [arg_formats].
  assert (Hpieces : Forall2 (λ fmt piece,
            lower (strip piece) = fmt ∧ has_char "," piece = false)
            fmts (zip_with typed_format fmts pads)).
  { clear Hne. revert pads Hlen.
    induction Hvalid as [|fmt fmts Hfmt Hvalid IH]; intros pads Hlen.
    - destruct pads; [constructor|done].
    - destruct pads as [|pad pads]; [done|].
      cbn [zip_with]. constructor; [by apply typed_format_reads|].
      apply IH. by injection Hlen. }
  destruct Hpieces as [|fmt piece fmts pieces [Hread Hfree] Hrest]; [done|].
  rewrite split_join.
  - rewrite app_nil_l. cbn [fmap list_fmap]. rewrite Hread. f_equal.
    clear -Hrest. induction Hrest as [|f p fs ps [Hr _] _ IH]; [done|].
    cbn [fmap list_fmap] in *. by rewrite Hr, IH.
  - constructor; [done|]. clear -Hrest.
    induction Hrest as [|f p fs ps [_ Hf] _ IH]; by constructor.
Qed.

End ParseFacts.

(* ===================================================================== *)
(** * More statements on the sample collaborators                         *)
(* ===================================================================== *)

Section MoreWitnesses.
Import Py Effects.

(** Formats svg, png, stl: the directory of svg is created, then "png"
    raises. *)
Lemma unknown_format_raises_key_error_witness :
  ("png" ∉ AllAssets.valid_formats)
  ∧ AllAssets.generate_assets Sample.all_ext ["svg"; "png"; "stl"] None ∅
      empty_world
    = (Raised (KeyError "png"), ∅,
       World [] [Div AllAssets.BASE_DIR "crystals"] [] []).
Proof.
  assert (Hbad : "png" ∉ AllAssets.valid_formats).
  { apply (bool_decide_unpack _). vm_compute. exact I. }
  split; [exact Hbad|].
  rewrite (unknown_format_raises_key_error Sample.all_ext ["svg"] "png" ["stl"]
             None ∅ empty_world).
  - reflexivity.
  - reflexivity.
  - apply (bool_decide_unpack _). vm_compute. exact I.
  - exact Hbad.
Defined.


(** The sample run with formats svg and gltf: three files, since the glTF
    exporter raises on "Quartz", "Ghost" is skipped and "Bad Geo" does not
    parse. *)
Lemma generate_assets_calls_and_files_witness :
  ∃ stats' w',
    AllAssets.generate_assets Sample.all_ext ["svg"; "gltf"] None ∅ empty_world
    = (Returned stats', stats', w')
    ∧ length (dirs w') = 2 ∧ length (calls w') = 4 ∧ length (files w') = 3.
Proof.
  destruct (generate_assets_calls_and_files Sample.all_ext ["svg"; "gltf"] None
              ∅ empty_world) as (stats' & w' & Hrun & Hdirs & Hcalls & Hfiles).
  - reflexivity.
  - apply (bool_decide_unpack _). vm_compute. exact I.
  - exists stats', w'. split; [exact Hrun|].
    rewrite Hdirs, Hcalls, Hfiles. by vm_compute.
Defined.

(** In that run the glTF entry counts one success and two failures, for the
    three presets with a description. *)
Lemma every_described_preset_is_counted_witness :
  ∃ stats' w' s,
    AllAssets.generate_assets Sample.all_ext ["svg"; "gltf"] None ∅ empty_world
    = (Returned stats', stats', w')
    ∧ stats' !! "gltf" = Some s
    ∧ AllAssets.success s + length (AllAssets.failed s) = 3.
Proof.
  destruct (every_described_preset_is_counted Sample.all_ext ["svg"; "gltf"]
              None ∅ empty_world "gltf")
    as (stats' & w' & s & Hrun & _ & Hs & Hsum & _).
  - reflexivity.
  - apply (bool_decide_unpack _). vm_compute. exact I.
  - apply (bool_decide_unpack _). vm_compute. exact I.
  - exists stats', w', s. split; [exact Hrun|]. split; [exact Hs|].
    rewrite Hsum. by vm_compute.
Defined.


(** The SVG-only script on the sample collaborators: two files, one
    failure. *)
Lemma crystal_generate_assets_effects_witness :
  ∃ w',
    CrystalAssets.generate_assets (Sample.crystal_ext None)
      (CrystalAssets.Locals 0 []) empty_world
    = (Returned (2, [("Bad Geo", "parse error")]),
       CrystalAssets.Locals 2 [("Bad Geo", "parse error")], w')
    ∧ length (files w') = 2.
Proof.
  destruct (crystal_generate_assets_effects (Sample.crystal_ext None)
              (CrystalAssets.Locals 0 []) empty_world eq_refl)
    as (w' & Hrun & _ & Hfiles & _).
  exists w'. split; [exact Hrun|]. rewrite Hfiles. reflexivity.
Defined.

(** [" SVG,  GLTF   "] reads as svg and gltf. *)
Lemma requested_formats_roundtrip_witness :
  AllAssets.requested_formats (AllAssets.Args " SVG,  GLTF   " None)
  = ["svg"; "gltf"].
Proof.
  apply (requested_formats_roundtrip ["svg"; "gltf"] [(1, 0); (2, 3)] None).
  - done.
  - apply (bool_decide_unpack _). vm_compute. exact I.
  - reflexivity.
Defined.

End MoreWitnesses.
